(** * CrystalValue: the LTV pipeline orchestrator

    A shallow embedding of [crystalvalue.py] (class [CrystalValue]) and of
    the collaborators its methods delegate to.

    The class is a mutable dataclass whose methods call into the modules
    [synthetic_data], [feature_engineering], [automl] and
    [model_evaluation].  A method is embedded as a computation in a small
    monad that threads the instance ([self]), the state of the external
    platform (warehouse and managed-ML service), and records every
    collaborator call together with its answer.  Exceptions are values of
    [exn]; attribute assignments made before an exception stay.  A
    collaborator acts on the platform only: it does not mutate the
    arguments it is passed.  The logging done by [__post_init__] is left
    out. *)

From Stdlib Require Import String Ascii List ZArith QArith Qabs Lia.
From Stdlib Require Import Permutation Sorted.
From stdpp Require Import gmap strings.

Open Scope string_scope.
Open Scope list_scope.

(** ** Python conventions *)

(** Truth value testing ([if x], [not x]): [None], the empty string and the
    empty container are false. *)
Class Truth (A : Type) := truth : A -> bool.

#[export] Instance truth_str : Truth string :=
  fun s => match s with EmptyString => false | String _ _ => true end.

#[export] Instance truth_list {A : Type} : Truth (list A) :=
  fun l => match l with [] => false | _ :: _ => true end.

#[export] Instance truth_optional {A : Type} `{Truth A} : Truth (option A) :=
  fun o => match o with None => false | Some a => truth a end.

(** A parameter with a default value: [None] is "argument not supplied". *)
Definition kwarg {A : Type} (supplied : option A) (default : A) : A :=
  match supplied with Some a => a | None => default end.

(** Exceptions.  The first five are raised by the interpreter or by the
    orchestrator itself; [TypeError t] is the one for adding a value of
    type [t] to a list ("can only concatenate list (not t) to list");
    [PreconditionError] is what a collaborator raises when its documented
    precondition is violated; [ServiceError] stands for any failure coming
    from the warehouse or the ML platform. *)
Inductive exn : Type :=
| ValueError (msg : string)
| UnboundLocalError (name : string)
| IndexError (msg : string)
| KeyError (key : string)
| TypeError (operand : string)
| PreconditionError (violated : string)
| ServiceError (detail : string).

(** [s.split(sep)] for a one-character separator. *)
Module str.
Fixpoint split (sep : ascii) (s : string) : list string :=
  match s with
  | EmptyString => [EmptyString]
  | String c rest =>
      if Ascii.eqb c sep then EmptyString :: split sep rest
      else match split sep rest with
           | piece :: pieces => String c piece :: pieces
           | [] => [String c EmptyString]
           end
  end.

(** [c in s] for a character [c]. *)
Fixpoint contains (s : string) (c : ascii) : bool :=
  match s with
  | EmptyString => false
  | String c' s' => Ascii.eqb c' c || contains s' c
  end.
End str.

(** [l[0]] and [l[-1]]. *)
Definition index_first {A : Type} (l : list A) : exn + A :=
  match l with
  | [] => inl (IndexError "list index out of range")
  | a :: _ => inr a
  end.

Fixpoint index_last {A : Type} (l : list A) : exn + A :=
  match l with
  | [] => inl (IndexError "list index out of range")
  | [a] => inr a
  | _ :: l' => index_last l'
  end.

(** ** Data *)

(** [bigquery.Client]: only its [project] attribute is read. *)
Record Client : Type := { project : string }.

(** A mapping from feature type to column names, in insertion order. *)
Definition FeatureTypes : Type := list (string * list string).

Fixpoint dict_get {V : Type} (d : list (string * V)) (key : string) : exn + V :=
  match d with
  | [] => inl (KeyError key)
  | (k, v) :: d' => if String.eqb k key then inr v else dict_get d' key
  end.

(** A value of type [Collection[str]]: the kinds of collection that the
    class can be given and that Python's [+] tells apart. *)
Inductive Collection : Type :=
| py_list (items : list string)
| py_tuple (items : list string)
| py_set (items : gset string)
| py_str (text : string).

#[export] Instance truth_collection : Truth Collection :=
  fun c =>
    match c with
    | py_list items => truth items
    | py_tuple items => truth items
    | py_set items => negb (bool_decide (items = ∅))
    | py_str text => truth text
    end.

(** [type(x).__name__] for an optional collection. *)
Definition type_name (x : option Collection) : string :=
  match x with
  | None => "NoneType"
  | Some (py_list _) => "list"
  | Some (py_tuple _) => "tuple"
  | Some (py_set _) => "set"
  | Some (py_str _) => "str"
  end.

(** [l + x] for a list [l]: only a list can be added to a list. *)
Definition list_add (l : list string) (x : option Collection)
    : exn + list string :=
  match x with
  | Some (py_list items) => inr (l ++ items)
  | _ => inl (TypeError (type_name x))
  end.

(** [pd.DataFrame]: rows of cells.  The orchestrator never looks inside. *)
Definition DataFrame : Type := list (list string).

(** Vertex AI objects, reduced to the attributes that are read. *)
Record Dataset : Type := { dataset_resource_name : string }.
Record BatchPredictionJob : Type := { job_resource_name : string }.
Record DeployedModelRef : Type := { endpoint : string; deployed_model_id : string }.
Record GcaModel : Type := { deployed_models : list DeployedModelRef }.
Record Model : Type := { name : string; gca_resource : GcaModel }.

(** One row of the evaluation table (one bucket of predictions). *)
Record EvaluationRecord : Type := {
  bin : nat;
  mean_predicted : Q;
  mean_actual : Q;
  normalised_mae : Q
}.

(** The attributes of a [CrystalValue] instance.  They live in a module
    named [self] so that a method body can read [self.model_id me] next to
    an argument called [model_id], as the source does. *)
Module self.
Record t : Type := mk {
  bigquery_client : Client;
  dataset_id : string;
  training_table_name : string;
  predict_table_name : string;
  customer_id_column : string;
  date_column : string;
  value_column : string;
  features_types : option FeatureTypes;
  ignore_columns : option Collection;
  location : string;
  days_lookback : Z;
  days_lookahead : Z;
  model_id : option string;
  endpoint_id : option string
}.

(** The dataclass constructor with its defaults. *)
Definition init (bigquery_client : Client) (dataset_id : string) : t :=
  mk bigquery_client dataset_id "training_data" "predict_features_data"
     "customer_id" "date" "value" None None "europe-west4" 365 365 None None.

Definition with_features_types (v : option FeatureTypes) (s : t) : t :=
  mk (bigquery_client s) (dataset_id s) (training_table_name s)
     (predict_table_name s) (customer_id_column s) (date_column s)
     (value_column s) v (ignore_columns s) (location s)
     (days_lookback s) (days_lookahead s) (model_id s) (endpoint_id s).

Definition with_ignore_columns (v : option Collection) (s : t) : t :=
  mk (bigquery_client s) (dataset_id s) (training_table_name s)
     (predict_table_name s) (customer_id_column s) (date_column s)
     (value_column s) (features_types s) v (location s)
     (days_lookback s) (days_lookahead s) (model_id s) (endpoint_id s).

Definition with_model_id (v : option string) (s : t) : t :=
  mk (bigquery_client s) (dataset_id s) (training_table_name s)
     (predict_table_name s) (customer_id_column s) (date_column s)
     (value_column s) (features_types s) (ignore_columns s) (location s)
     (days_lookback s) (days_lookahead s) v (endpoint_id s).

Definition with_endpoint_id (v : option string) (s : t) : t :=
  mk (bigquery_client s) (dataset_id s) (training_table_name s)
     (predict_table_name s) (customer_id_column s) (date_column s)
     (value_column s) (features_types s) (ignore_columns s) (location s)
     (days_lookback s) (days_lookahead s) (model_id s) v.
End self.

(** ** Collaborator calls

    One constructor per function of the sibling modules that the class
    calls, with the keyword arguments in the order the class passes them. *)
Inductive call : Type :=
| synthetic_data_create_synthetic_data
    (bigquery_client : Client) (dataset_id table_name : string)
    (row_count : Z) (start_date end_date : string)
    (load_table_to_bigquery : bool) (location : string)
| feature_engineering_run_data_checks
    (bigquery_client : Client)
    (dataset_id table_name summary_table_name : string)
    (days_lookback days_lookahead : Z)
    (customer_id_column date_column value_column : string)
    (round_decimal_places : Z) (location : string)
| feature_engineering_detect_feature_types
    (bigquery_client : Client) (dataset_id table_name : string)
    (ignore_columns : option Collection)
| feature_engineering_build_query
    (query_type : string) (bigquery_client : Client)
    (dataset_id transaction_table_name : string)
    (features_types : option FeatureTypes)
    (write_executed_query_file : option string)
    (days_lookback days_lookahead : Z)
    (customer_id_column date_column value_column : string)
| feature_engineering_run_query
    (bigquery_client : Client) (query_sql query_file : option string)
    (dataset_id destination_table_name location : string)
| automl_create_automl_dataset
    (project_id dataset_id table_name dataset_display_name location : string)
| automl_train_automl_model
    (project_id : string) (aiplatform_dataset : Dataset)
    (model_display_name predefined_split_column_name target_column
       optimization_objective : string)
    (budget_milli_node_hours : Z) (location : string)
| automl_create_batch_predictions
    (project_id dataset_id : string) (model_resource_name : option string)
    (table_name location : string)
| automl_load_predictions_to_table
    (bigquery_client : Client) (dataset_id : string)
    (batch_predictions : BatchPredictionJob)
    (location destination_table model_name : string)
| automl_deploy_model
    (bigquery_client : Client) (model_id : option string) (location : string)
| model_evaluation_evaluate_model_predictions
    (bigquery_client : Client) (dataset_id : string)
    (endpoint model_id : option string)
    (table_evaluation_stats location : string) (number_bins : Z).

(** What each call returns when it does not raise. *)
Definition resp (c : call) : Type :=
  match c with
  | synthetic_data_create_synthetic_data _ _ _ _ _ _ _ _ => DataFrame
  | feature_engineering_run_data_checks _ _ _ _ _ _ _ _ _ _ _ => DataFrame
  | feature_engineering_detect_feature_types _ _ _ _ => FeatureTypes
  | feature_engineering_build_query _ _ _ _ _ _ _ _ _ _ _ => string
  | feature_engineering_run_query _ _ _ _ _ _ => DataFrame
  | automl_create_automl_dataset _ _ _ _ _ => Dataset
  | automl_train_automl_model _ _ _ _ _ _ _ _ => Model
  | automl_create_batch_predictions _ _ _ _ _ => BatchPredictionJob
  | automl_load_predictions_to_table _ _ _ _ _ _ => unit
  | automl_deploy_model _ _ _ => Model
  | model_evaluation_evaluate_model_predictions _ _ _ _ _ _ _ =>
      list EvaluationRecord
  end.

(** What a run leaves behind, in order: the collaborator calls with their
    answers, and the [logging.info] records. *)
Inductive event : Type :=
| Called (c : call) (answer : exn + resp c)
| Logged (format : string) (args : list string).

Definition raised (ev : event) : option exn :=
  match ev with
  | Called _ (inl e) => Some e
  | _ => None
  end.

Definition request (ev : event) : option call :=
  match ev with
  | Called c _ => Some c
  | Logged _ _ => None
  end.

(** ** The method monad *)

Record Run (W A : Type) : Type := {
  outcome : exn + A;
  self_after : self.t;
  world_after : W;
  trace : list event
}.
Arguments outcome {W A} _.
Arguments self_after {W A} _.
Arguments world_after {W A} _.
Arguments trace {W A} _.

(** The environment a method runs in: every collaborator call is answered
    from the state [W] of the external platform, which it may change. *)
Definition platform (W : Type) : Type :=
  forall c : call, W -> (exn + resp c) * W.

Section Monad.
Context {W : Type}.
Variable collaborators : platform W.

Definition M (A : Type) : Type := self.t -> W -> Run W A.

Definition ret {A : Type} (a : A) : M A :=
  fun me w => {| outcome := inr a; self_after := me; world_after := w; trace := [] |}.

Definition raise {A : Type} (e : exn) : M A :=
  fun me w => {| outcome := inl e; self_after := me; world_after := w; trace := [] |}.

Definition bind {A B : Type} (m : M A) (k : A -> M B) : M B :=
  fun me w =>
    let r := m me w in
    match outcome r with
    | inl e =>
        {| outcome := inl e; self_after := self_after r;
           world_after := world_after r; trace := trace r |}
    | inr a =>
        let r' := k a (self_after r) (world_after r) in
        {| outcome := outcome r'; self_after := self_after r';
           world_after := world_after r'; trace := trace r ++ trace r' |}
    end.

(** Reading and assigning attributes of [self]. *)
Definition get_self : M self.t :=
  fun me w => {| outcome := inr me; self_after := me; world_after := w; trace := [] |}.

Definition assign (update : self.t -> self.t) : M unit :=
  fun me w => {| outcome := inr tt; self_after := update me; world_after := w; trace := [] |}.

(** A value that is either there or an exception. *)
Definition lift {A : Type} (r : exn + A) : M A :=
  match r with inl e => raise e | inr a => ret a end.

(** Reading a local variable that may not have been assigned. *)
Definition local {A : Type} (name : string) (slot : option A) : M A :=
  match slot with Some a => ret a | None => raise (UnboundLocalError name) end.

(** Calling a collaborator. *)
Definition invoke (c : call) : M (resp c) :=
  fun me w =>
    let (answer, w') := collaborators c w in
    {| outcome := answer; self_after := me; world_after := w';
       trace := [Called c answer] |}.

Definition logging_info (format : string) (args : list string) : M unit :=
  fun me w => {| outcome := inr tt; self_after := me; world_after := w;
                 trace := [Logged format args] |}.

(** [for x in xs: body]. *)
Fixpoint for_each {A : Type} (xs : list A) (body : A -> M unit) : M unit :=
  match xs with
  | [] => ret tt
  | x :: xs' => bind (body x) (fun _ => for_each xs' body)
  end.
End Monad.

Declare Scope method_scope.
Delimit Scope method_scope with method.
Notation "x <- m ;; k" := (bind m (fun x => k))
  (at level 100, m at next level, right associativity) : method_scope.
Notation "m ;; k" := (bind m (fun _ => k))
  (at level 100, right associativity) : method_scope.

(** ** The methods of [CrystalValue]

    Each definition follows the method of the same name statement by
    statement.  A parameter that has a default in the source is an
    [option] resolved with [kwarg]. *)
Module CrystalValue.
Section Methods.
Context {W : Type}.
Variable collaborators : platform W.

Local Open Scope method_scope.
Local Abbreviation ask := (invoke collaborators).

Definition create_synthetic_data
    (table_name : option string) (row_count : option Z)
    (start_date end_date : option string) : M DataFrame :=
  let table_name := kwarg table_name "synthetic_data" in
  let row_count := kwarg row_count 100000%Z in
  let start_date := kwarg start_date "2018-01-01" in
  let end_date := kwarg end_date "2021-01-01" in
  me <- get_self ;;
  ask (synthetic_data_create_synthetic_data
         (self.bigquery_client me) (self.dataset_id me) table_name
         row_count start_date end_date true (self.location me)).

Definition run_data_checks
    (transaction_table_name : string) (round_decimal_places : option Z)
    (summary_table_name : option string) : M DataFrame :=
  let round_decimal_places := kwarg round_decimal_places 2%Z in
  let summary_table_name :=
    kwarg summary_table_name "crystalvalue_data_statistics" in
  me <- get_self ;;
  ask (feature_engineering_run_data_checks
         (self.bigquery_client me) (self.dataset_id me)
         transaction_table_name summary_table_name
         (self.days_lookback me) (self.days_lookahead me)
         (self.customer_id_column me) (self.date_column me)
         (self.value_column me) round_decimal_places (self.location me)).

Definition run_query
    (destination_table_name : string)
    (query_sql query_file : option string) : M DataFrame :=
  me <- get_self ;;
  ask (feature_engineering_run_query
         (self.bigquery_client me) query_sql query_file
         (self.dataset_id me) destination_table_name (self.location me)).

Definition feature_engineer
    (transaction_table_name : string) (query_type : option string)
    (write_executed_query_file : option string) : M DataFrame :=
  let query_type := kwarg query_type "train_query" in
  me <- get_self ;;
  (if negb (truth (self.features_types me)) then
     (if negb (truth (self.ignore_columns me)) then
        assign (self.with_ignore_columns
                  (Some (py_list [self.customer_id_column me;
                                  self.date_column me])))
      else
        extended <- lift (list_add [self.customer_id_column me;
                                    self.date_column me]
                                   (self.ignore_columns me)) ;;
        assign (self.with_ignore_columns (Some (py_list extended)))) ;;
     me <- get_self ;;
     detected <- ask (feature_engineering_detect_feature_types
                        (self.bigquery_client me) (self.dataset_id me)
                        transaction_table_name (self.ignore_columns me)) ;;
     assign (self.with_features_types (Some detected)) ;;
     me <- get_self ;;
     (if negb (truth (self.features_types me)) then
        raise (ValueError "No features detected")
      else ret tt) ;;
     (* past the test the attribute holds a non-empty mapping *)
     let features_types := default [] (self.features_types me) in
     for_each (map fst features_types) (fun feature_type =>
       features <- lift (dict_get features_types feature_type) ;;
       for_each features (fun feature =>
         logging_info "Detected %r feature %r" [feature_type; feature]))
   else ret tt) ;;
  me <- get_self ;;
  query <- ask (feature_engineering_build_query
                  query_type (self.bigquery_client me) (self.dataset_id me)
                  transaction_table_name (self.features_types me)
                  write_executed_query_file
                  (self.days_lookback me) (self.days_lookahead me)
                  (self.customer_id_column me) (self.date_column me)
                  (self.value_column me)) ;;
  let table_name :=
    if String.eqb query_type "train_query" then
      Some (self.training_table_name me)
    else if String.eqb query_type "predict_query" then
      Some (self.predict_table_name me)
    else None in
  table_name <- local "table_name" table_name ;;
  run_query table_name (Some query) None.

Definition train
    (dataset_display_name model_display_name predefined_split_column_name
       target_column optimization_objective : option string)
    (budget_milli_node_hours : option Z) : M Model :=
  let dataset_display_name :=
    kwarg dataset_display_name "crystalvalue_dataset" in
  let model_display_name := kwarg model_display_name "crystalvalue_model" in
  let predefined_split_column_name :=
    kwarg predefined_split_column_name "predefined_split_column" in
  let target_column := kwarg target_column "future_value" in
  let optimization_objective :=
    kwarg optimization_objective "minimize-rmse" in
  let budget_milli_node_hours := kwarg budget_milli_node_hours 1000%Z in
  me <- get_self ;;
  aiplatform_dataset <-
    ask (automl_create_automl_dataset
           (project (self.bigquery_client me)) (self.dataset_id me)
           (self.training_table_name me) dataset_display_name
           (self.location me)) ;;
  model <-
    ask (automl_train_automl_model
           (project (self.bigquery_client me)) aiplatform_dataset
           model_display_name predefined_split_column_name target_column
           optimization_objective budget_milli_node_hours
           (self.location me)) ;;
  assign (self.with_model_id (Some (name model))) ;;
  ret model.

Definition batch_predict
    (input_table_name : string) (model_id : option string)
    (model_name destination_table : option string) : M unit :=
  let model_name := kwarg model_name "crystalvalue_model" in
  let destination_table :=
    kwarg destination_table "crystalvalue_predictions" in
  me <- get_self ;;
  let model_id :=
    if negb (truth model_id) then self.model_id me else model_id in
  batch_predictions <-
    ask (automl_create_batch_predictions
           (project (self.bigquery_client me)) (self.dataset_id me)
           model_id input_table_name (self.location me)) ;;
  ask (automl_load_predictions_to_table
         (self.bigquery_client me) (self.dataset_id me) batch_predictions
         (self.location me) destination_table model_name).

Definition deploy_model (model_id : option string) : M Model :=
  me <- get_self ;;
  let model_id :=
    if negb (truth model_id) then self.model_id me else model_id in
  model <- ask (automl_deploy_model
                  (self.bigquery_client me) model_id (self.location me)) ;;
  deployed <- lift (index_first (deployed_models (gca_resource model))) ;;
  segment <- lift (index_last (str.split "/" (endpoint deployed))) ;;
  assign (self.with_endpoint_id (Some segment)) ;;
  ret model.

Definition evaluate_model
    (endpoint_id : option string) (table_evaluation_stats : option string)
    (number_bins : option Z) : M (list EvaluationRecord) :=
  let table_evaluation_stats :=
    kwarg table_evaluation_stats "crystalvalue_evaluation" in
  let number_bins := kwarg number_bins 10%Z in
  me <- get_self ;;
  let endpoint_id :=
    if negb (truth endpoint_id) then self.endpoint_id me else endpoint_id in
  ask (model_evaluation_evaluate_model_predictions
         (self.bigquery_client me) (self.dataset_id me) endpoint_id
         (self.model_id me) table_evaluation_stats (self.location me)
         number_bins).
End Methods.
End CrystalValue.

(** ** Collaborators whose code is not part of the class

    [crystalvalue.py] only calls the modules below.  Where a property of
    the pipeline is decided inside one of them, the function is modelled
    from the written specification of the component. *)

Module feature_engineering.

(** A table is named by project, dataset and table name. *)
Definition TableId : Type := string * string * string.

Record Job : Type := {
  job_query : string;
  job_destination : TableId;
  job_location : string
}.

(** The warehouse: its tables, and the query jobs it has been given. *)
Record Warehouse : Type := {
  tables : gmap TableId DataFrame;
  jobs : list Job
}.

Section Executor.
(** What a query evaluates to in a given location (or how it fails),
    and the text of the file at a path. *)
Variable engine : string -> string -> Warehouse -> exn + DataFrame.
Variable read_text : string -> exn + string.

Definition execute (sql : string) (destination : TableId)
    (location : string) (w : Warehouse) : (exn + DataFrame) * Warehouse :=
  let job := {| job_query := sql; job_destination := destination;
                job_location := location |} in
  match engine sql location w with
  | inl e => (inl e, {| tables := tables w; jobs := jobs w ++ [job] |})
  | inr rows =>
      (inr rows, {| tables := <[destination := rows]> (tables w);
                    jobs := jobs w ++ [job] |})
  end.

(** Modelled from the spec: [feature_engineering.run_query], the query
    executor of section 4.3, is missing from the sources.  It accepts
    either a literal query string or a path to one (exactly one must be
    provided, it fails otherwise), executes it against the warehouse in
    the given location, writes the results to the destination table and
    returns the resulting table's contents. *)
Definition run_query (bigquery_client : Client)
    (query_sql query_file : option string)
    (dataset_id destination_table_name location : string)
    (w : Warehouse) : (exn + DataFrame) * Warehouse :=
  let destination :=
    (project bigquery_client, dataset_id, destination_table_name) in
  match query_sql, query_file with
  | Some sql, None => execute sql destination location w
  | None, Some path =>
      match read_text path with
      | inl e => (inl e, w)
      | inr sql => execute sql destination location w
      end
  | Some _, Some _ | None, None =>
      (inl (PreconditionError
              "exactly one of query_sql and query_file must be provided"),
       w)
  end.
End Executor.

End feature_engineering.

Module model_evaluation.
Local Open Scope Q_scope.

(** A prediction paired with the actual value, which may be missing. *)
Definition Pair : Type := Q * option Q.

Definition matched (pairs : list Pair) : list (Q * Q) :=
  flat_map (fun p => match snd p with
                     | Some actual => [(fst p, actual)]
                     | None => []
                     end) pairs.

(** Sorting by predicted value, descending. *)
Fixpoint insert_desc (p : Q * Q) (l : list (Q * Q)) : list (Q * Q) :=
  match l with
  | [] => [p]
  | q :: l' =>
      if Qle_bool (fst q) (fst p) then p :: q :: l'
      else q :: insert_desc p l'
  end.

Definition sort_desc (l : list (Q * Q)) : list (Q * Q) :=
  fold_right insert_desc [] l.

(** Bucket [i] of [number_bins]: the positions from [i * n / number_bins]
    up to [(i + 1) * n / number_bins] of the [n] sorted pairs. *)
Definition bucket {A : Type} (number_bins : nat) (l : list A) (i : nat)
    : list A :=
  let lo := (i * length l / number_bins)%nat in
  let hi := (S i * length l / number_bins)%nat in
  firstn (hi - lo) (skipn lo l).

Definition buckets {A : Type} (number_bins : nat) (l : list A)
    : list (list A) :=
  map (bucket number_bins l) (seq 0 number_bins).

Definition total (l : list Q) : Q := fold_right Qplus 0 l.

Definition mean (l : list Q) : Q :=
  total l / inject_Z (Z.of_nat (length l)).

Definition summarise (i : nat) (b : list (Q * Q)) : EvaluationRecord :=
  {| bin := i;
     mean_predicted := mean (map fst b);
     mean_actual := mean (map snd b);
     normalised_mae :=
       mean (map (fun p => Qabs (fst p - snd p)) b) / mean (map snd b) |}.

(** Modelled from the spec: the table computed by the evaluator of
    section 4.4, whose module is missing from the sources.  Pairs with a
    missing actual value are excluded, the rest is sorted by predicted
    value descending and partitioned into [number_bins] equal-sized
    buckets, and each bucket gives one row with its mean predicted value,
    mean actual value and normalised mean absolute error.  The summary
    fields over the full set (Spearman, Gini) and the percentage error
    are not part of this model. *)
Definition evaluation_table (number_bins : nat) (pairs : list Pair)
    : list EvaluationRecord :=
  let ranked := sort_desc (matched pairs) in
  map (fun i => summarise i (bucket number_bins ranked i))
      (seq 0 number_bins).

Section Evaluator.
Context {W : Type}.
(** The predictions of the deployed model on the holdout set, next to
    the actual values. *)
Variable holdout_predictions :
  Client -> string -> option string -> option string -> string -> W ->
  exn + list Pair.

(** Modelled from the spec: [model_evaluation.evaluate_model_predictions]
    is missing from the sources.  It obtains the matched predicted and
    actual values and returns the evaluation table. *)
Definition evaluate_model_predictions (bigquery_client : Client)
    (dataset_id : string) (endpoint model_id : option string)
    (table_evaluation_stats location : string) (number_bins : Z) (w : W)
    : (exn + list EvaluationRecord) * W :=
  match holdout_predictions bigquery_client dataset_id endpoint model_id
                            location w with
  | inl e => (inl e, w)
  | inr pairs => (inr (evaluation_table (Z.to_nat number_bins) pairs), w)
  end.
End Evaluator.
End model_evaluation.

(** ** Platforms with a modelled collaborator

    A platform that answers one kind of call with a collaborator modelled
    above and every other call as [base] does. *)
Section Platforms.
Import feature_engineering model_evaluation.

Definition with_run_query
    (engine : string -> string -> Warehouse -> exn + DataFrame)
    (read_text : string -> exn + string)
    (base : platform Warehouse) : platform Warehouse :=
  fun c =>
    match c as c0 return Warehouse -> (exn + resp c0) * Warehouse with
    | feature_engineering_run_query cl sql file ds dest loc =>
        run_query engine read_text cl sql file ds dest loc
    | c0 => base c0
    end.

Definition with_evaluator {W : Type}
    (holdout_predictions :
       Client -> string -> option string -> option string -> string -> W ->
       exn + list Pair)
    (base : platform W) : platform W :=
  fun c =>
    match c as c0 return W -> (exn + resp c0) * W with
    | model_evaluation_evaluate_model_predictions cl ds ep mid tbl loc bins =>
        evaluate_model_predictions holdout_predictions cl ds ep mid tbl loc bins
    | c0 => base c0
    end.
End Platforms.

(** ** Predicates on runs *)

(** The query text a successful [build_query] call returned. *)
Definition built_query (ev : event) : option string :=
  match ev with
  | Called (feature_engineering_build_query _ _ _ _ _ _ _ _ _ _ _) (inr sql) =>
      Some sql
  | _ => None
  end.

(** The model a successful training or deployment call returned. *)
Definition trained_model (ev : event) : option Model :=
  match ev with
  | Called (automl_train_automl_model _ _ _ _ _ _ _ _) (inr model) => Some model
  | _ => None
  end.

Definition deployed_model (ev : event) : option Model :=
  match ev with
  | Called (automl_deploy_model _ _ _) (inr model) => Some model
  | _ => None
  end.

Definition is_log (ev : event) : Prop :=
  match ev with Logged _ _ => True | Called _ _ => False end.

(** Every column that a feature-type mapping classifies. *)
Definition classified_columns (ft : FeatureTypes) : list string :=
  flat_map snd ft.

(** A computation re-raises: an exception raised by a collaborator call is
    the outcome of the computation, and that call is the last thing the
    computation did. *)
Definition reraises {W A : Type} (m : M (W:=W) A) : Prop :=
  forall me w ev e,
    In ev (trace (m me w)) -> raised ev = Some e ->
    outcome (m me w) = inl e /\ last (trace (m me w)) = Some ev.

(** A computation leaves an attribute (or any view [f] of the instance)
    as it was. *)
Definition keeps {W A X : Type} (f : self.t -> X) (m : M (W:=W) A) : Prop :=
  forall me w, f (self_after (m me w)) = f me.

(** Orders for the evaluation: a pair ranks before another when its
    predicted value is at least as large, and likewise for the rows by
    their mean predicted value. *)
Definition ranks_before (a b : Q * Q) : Prop := (fst b <= fst a)%Q.

Definition descending_means (a b : EvaluationRecord) : Prop :=
  (mean_predicted b <= mean_predicted a)%Q.

(** A pair whose actual value is present. *)
Definition present (p : model_evaluation.Pair) : Prop := snd p <> None.

(** The two identifiers that training and deployment store. *)
Definition identifiers (s : self.t) : option string * option string :=
  (self.model_id s, self.endpoint_id s).

(** Every attribute except [features_types] and [ignore_columns]. *)
Definition other_attributes (s : self.t) :=
  (self.bigquery_client s, self.dataset_id s, self.training_table_name s,
   self.predict_table_name s, self.customer_id_column s, self.date_column s,
   self.value_column s, self.location s, self.days_lookback s,
   self.days_lookahead s, self.model_id s, self.endpoint_id s).

(** The values of [ignore_columns] with which the detection block of
    [feature_engineer] gets past its concatenation: none, an empty
    collection, or a list. *)
Definition concatenable (x : option Collection) : bool :=
  match x with
  | None => true
  | Some (py_list _) => true
  | Some c => negb (truth c)
  end.

(** The columns [feature_engineer] then tells the detector to ignore. *)
Definition detection_ignore_columns (s : self.t) : list string :=
  match self.ignore_columns s with
  | Some (py_list supplied) =>
      [self.customer_id_column s; self.date_column s] ++ supplied
  | _ => [self.customer_id_column s; self.date_column s]
  end.

(** The detector call [feature_engineer] makes on instance [me]. *)
Definition detect_request (table : string) (me : self.t) : call :=
  feature_engineering_detect_feature_types
    (self.bigquery_client me) (self.dataset_id me) table
    (Some (py_list (detection_ignore_columns me))).

(** The calls [feature_engineer] makes to build and to run the query. *)
Definition build_request (table : string) (query_type file : option string)
    (me : self.t) : call :=
  feature_engineering_build_query
    (kwarg query_type "train_query") (self.bigquery_client me)
    (self.dataset_id me) table (self.features_types me) file
    (self.days_lookback me) (self.days_lookahead me)
    (self.customer_id_column me) (self.date_column me) (self.value_column me).

Definition run_query_request (destination sql : string) (me : self.t) : call :=
  feature_engineering_run_query
    (self.bigquery_client me) (Some sql) None (self.dataset_id me)
    destination (self.location me).

(** The two blocks of [feature_engineer], cut out of its body so that
    each can be run on its own: the statements under
    [if not self.features_types:] (with [me], the instance as read on
    entry; the assignment to [ignore_columns] comes first), and the
    statements after them. *)
Section Blocks.
Context {W : Type}.
Variable collaborators : platform W.
Local Open Scope method_scope.
Local Abbreviation ask := (invoke collaborators).

Definition overwrite_ignore_columns (me : self.t) : M (W:=W) unit :=
  if negb (truth (self.ignore_columns me)) then
    assign (self.with_ignore_columns
              (Some (py_list [self.customer_id_column me;
                              self.date_column me])))
  else
    extended <- lift (list_add [self.customer_id_column me;
                                self.date_column me]
                               (self.ignore_columns me)) ;;
    assign (self.with_ignore_columns (Some (py_list extended))).

Definition detection_block (transaction_table_name : string)
    (me : self.t) : M unit :=
  overwrite_ignore_columns me ;;
  me <- get_self ;;
  detected <- ask (feature_engineering_detect_feature_types
                     (self.bigquery_client me) (self.dataset_id me)
                     transaction_table_name (self.ignore_columns me)) ;;
  assign (self.with_features_types (Some detected)) ;;
  me <- get_self ;;
  (if negb (truth (self.features_types me)) then
     raise (ValueError "No features detected")
   else ret tt) ;;
  let features_types := default [] (self.features_types me) in
  for_each (map fst features_types) (fun feature_type =>
    features <- lift (dict_get features_types feature_type) ;;
    for_each features (fun feature =>
      logging_info "Detected %r feature %r" [feature_type; feature])).

Definition build_and_run (transaction_table_name : string)
    (query_type write_executed_query_file : option string) : M DataFrame :=
  let query_type := kwarg query_type "train_query" in
  me <- get_self ;;
  query <- ask (feature_engineering_build_query
                  query_type (self.bigquery_client me) (self.dataset_id me)
                  transaction_table_name (self.features_types me)
                  write_executed_query_file
                  (self.days_lookback me) (self.days_lookahead me)
                  (self.customer_id_column me) (self.date_column me)
                  (self.value_column me)) ;;
  let table_name :=
    if String.eqb query_type "train_query" then
      Some (self.training_table_name me)
    else if String.eqb query_type "predict_query" then
      Some (self.predict_table_name me)
    else None in
  table_name <- local "table_name" table_name ;;
  CrystalValue.run_query collaborators table_name (Some query) None.
End Blocks.

(** A computation that returns [a] and does nothing but log. *)
Definition only_logs {W A : Type} (m : M (W:=W) A) (a : A) : Prop :=
  forall me w,
    outcome (m me w) = inr a /\ self_after (m me w) = me /\
    world_after (m me w) = w /\ Forall is_log (trace (m me w)).

(** The collaborator calls of a trace, in order, without the answers and
    the log records. *)
Definition requests (tr : list event) : list call := omap request tr.

(** The log records the detection loop of [feature_engineer] writes for a
    mapping: one per feature, type by type. *)
Definition detection_logs (ft : FeatureTypes) : list event :=
  flat_map (fun entry =>
              map (fun feature =>
                     Logged "Detected %r feature %r" [fst entry; feature])
                  (snd entry))
           ft.

(** The calls of [train], [deploy_model], [batch_predict] and
    [evaluate_model] on instance [me], for the values that vary. *)
Definition dataset_request (dataset_display_name : option string)
    (me : self.t) : call :=
  automl_create_automl_dataset
    (project (self.bigquery_client me)) (self.dataset_id me)
    (self.training_table_name me)
    (kwarg dataset_display_name "crystalvalue_dataset") (self.location me).

Definition training_request (aiplatform_dataset : Dataset)
    (model_display_name predefined_split_column_name target_column
       optimization_objective : option string)
    (budget_milli_node_hours : option Z) (me : self.t) : call :=
  automl_train_automl_model
    (project (self.bigquery_client me)) aiplatform_dataset
    (kwarg model_display_name "crystalvalue_model")
    (kwarg predefined_split_column_name "predefined_split_column")
    (kwarg target_column "future_value")
    (kwarg optimization_objective "minimize-rmse")
    (kwarg budget_milli_node_hours 1000%Z) (self.location me).

Definition deploy_request (model : option string) (me : self.t) : call :=
  automl_deploy_model (self.bigquery_client me) model (self.location me).

Definition batch_request (input_table_name : string) (model : option string)
    (me : self.t) : call :=
  automl_create_batch_predictions
    (project (self.bigquery_client me)) (self.dataset_id me) model
    input_table_name (self.location me).

Definition load_request (batch_predictions : BatchPredictionJob)
    (destination_table model_name : option string) (me : self.t) : call :=
  automl_load_predictions_to_table
    (self.bigquery_client me) (self.dataset_id me) batch_predictions
    (self.location me)
    (kwarg destination_table "crystalvalue_predictions")
    (kwarg model_name "crystalvalue_model").

Definition evaluation_request (endpoint : option string)
    (table_evaluation_stats : option string) (number_bins : option Z)
    (me : self.t) : call :=
  model_evaluation_evaluate_model_predictions
    (self.bigquery_client me) (self.dataset_id me) endpoint
    (self.model_id me)
    (kwarg table_evaluation_stats "crystalvalue_evaluation")
    (self.location me) (kwarg number_bins 10%Z).

(** Where the exceptions of a computation come from: each is one the
    computation raises itself ([own]) or the one its last collaborator call
    raised. *)
Definition originates {W A : Type} (own : exn -> Prop) (m : M (W:=W) A)
    : Prop :=
  forall me w e,
    outcome (m me w) = inl e ->
    own e \/
    exists ev, last (trace (m me w)) = Some ev /\ raised ev = Some e.

(** The workflow of the module's docstring, after feature engineering:
    train, deploy the trained model, evaluate the deployed one. *)
Definition train_deploy_evaluate {W : Type} (collaborators : platform W)
    : M (W:=W) (list EvaluationRecord) :=
  bind (CrystalValue.train collaborators None None None None None None)
       (fun _ =>
          bind (CrystalValue.deploy_model collaborators None)
               (fun _ =>
                  CrystalValue.evaluate_model collaborators None None None)).

(** ** A sample platform

    Every call succeeds with a fixed answer, except that the detector's and
    the deployment's answers are given.  The state counts the calls. *)
Definition sample_model (deployed : list DeployedModelRef) : Model :=
  {| name := "553728129496821";
     gca_resource := {| deployed_models := deployed |} |}.

Definition sample_platform (detected : exn + FeatureTypes)
    (deployed : list DeployedModelRef) : platform nat :=
  fun c =>
    match c as c0 return nat -> (exn + resp c0) * nat with
    | synthetic_data_create_synthetic_data _ _ _ _ _ _ _ _ =>
        fun n => (inr [["c1"; "2018-01-01"; "10"]], S n)
    | feature_engineering_run_data_checks _ _ _ _ _ _ _ _ _ _ _ =>
        fun n => (inr [["customers"; "1"]], S n)
    | feature_engineering_detect_feature_types _ _ _ _ =>
        fun n => (detected, S n)
    | feature_engineering_build_query _ _ _ _ _ _ _ _ _ _ _ =>
        fun n => (inr "SELECT customer_id FROM transactions", S n)
    | feature_engineering_run_query _ _ _ _ _ _ =>
        fun n => (inr [["c1"; "10"]], S n)
    | automl_create_automl_dataset _ _ _ _ _ =>
        fun n => (inr {| dataset_resource_name := "datasets/7" |}, S n)
    | automl_train_automl_model _ _ _ _ _ _ _ _ =>
        fun n => (inr (sample_model []), S n)
    | automl_create_batch_predictions _ _ _ _ _ =>
        fun n => (inr {| job_resource_name := "batchPredictionJobs/3" |}, S n)
    | automl_load_predictions_to_table _ _ _ _ _ _ =>
        fun n => (inr tt, S n)
    | automl_deploy_model _ _ _ =>
        fun n => (inr (sample_model deployed), S n)
    | model_evaluation_evaluate_model_predictions _ _ _ _ _ _ _ =>
        fun n => (inr [], S n)
    end.

(** A platform on which every call fails with the same exception. *)
Definition failing_platform (e : exn) : platform nat :=
  fun c n => (inl e, S n).

Definition sample_self : self.t :=
  self.init {| project := "my-project" |} "an_existing_dataset".

Definition sample_endpoint : DeployedModelRef :=
  {| endpoint := "projects/12/locations/europe-west4/endpoints/4242";
     deployed_model_id := "99" |}.

(** An instance that already has its feature types. *)
Definition sample_self_with_features : self.t :=
  self.with_features_types (Some [("numeric", ["transaction_value"])])
    sample_self.

(** An instance given its columns to ignore as a tuple. *)
Definition sample_self_with_tuple : self.t :=
  self.with_ignore_columns (Some (py_tuple ["webpage_id_column"]))
    sample_self.

(** A platform that answers nothing, over any state. *)
Definition unavailable_platform {W : Type} : platform W :=
  fun c w => (inl (ServiceError "unavailable"), w).

(** A warehouse whose engine returns the text of the query as its only
    cell, and a file system with one query file. *)
Definition sample_engine (sql location : string)
    (w : feature_engineering.Warehouse) : exn + DataFrame :=
  if String.eqb sql "" then inl (ServiceError "empty query")
  else inr [[sql]].

Definition sample_files (path : string) : exn + string :=
  if String.eqb path "train_query.sql"
  then inr "SELECT customer_id FROM transactions"
  else inl (ServiceError "no such file").

Definition empty_warehouse : feature_engineering.Warehouse :=
  {| feature_engineering.tables := ∅; feature_engineering.jobs := [] |}.

(** A hundred holdout pairs: prediction [i], actual value [2 i]. *)
Definition sample_pairs : list model_evaluation.Pair :=
  map (fun i => (inject_Z (Z.of_nat i), Some (inject_Z (Z.of_nat (2 * i)))))
      (seq 0 100).

(** * Properties *)

(** ** Truth values *)

Lemma falsy_optional_str (o : option string) :
  truth o = false <-> o = None \/ o = Some "".
Proof.
  destruct o as [[|c s]|]; cbn; split; intros H; auto;
    try discriminate; destruct H as [H|H]; discriminate.
Qed.

Lemma falsy_optional_list {A : Type} (o : option (list A)) :
  truth o = false <-> o = None \/ o = Some [].
Proof.
  destruct o as [[|a l]|]; cbn; split; intros H; auto;
    try discriminate; destruct H as [H|H]; discriminate.
Qed.

(** ** Splitting a string *)

Lemma split_not_nil sep s : str.split sep s <> [].
Proof.
  destruct s as [|c s]; cbn; [discriminate|].
  destruct (Ascii.eqb c sep); [discriminate|].
  destruct (str.split sep s); discriminate.
Qed.

Lemma index_last_cons {A : Type} (a : A) (l : list A) :
  l <> [] -> index_last (a :: l) = index_last l.
Proof. destruct l; [congruence | reflexivity]. Qed.

Lemma index_last_some {A : Type} (l : list A) :
  l <> [] -> exists a, index_last l = inr a.
Proof.
  induction l as [|a l IH]; [congruence|]. intros _.
  destruct l as [|b l]; [eexists; reflexivity|].
  rewrite index_last_cons by discriminate. apply IH. discriminate.
Qed.

Lemma split_no_separator sep s :
  str.contains s sep = false -> str.split sep s = [s].
Proof.
  induction s as [|c s IH]; cbn; [reflexivity|].
  destruct (Ascii.eqb c sep); cbn; [discriminate|].
  intros H. rewrite (IH H). reflexivity.
Qed.

Lemma split_single sep s piece :
  str.split sep s = [piece] -> s = piece /\ str.contains piece sep = false.
Proof.
  revert piece. induction s as [|c s IH]; intros piece; cbn.
  - intros [= <-]. auto.
  - destruct (Ascii.eqb c sep) eqn:Ec.
    + intros [= _ H]. exfalso. eapply split_not_nil; eauto.
    + destruct (str.split sep s) as [|p ps] eqn:Es;
        [exfalso; eapply split_not_nil; eauto|].
      intros [= <- ->]. destruct (IH p eq_refl) as [-> Hno].
      split; [reflexivity|]. cbn. rewrite Ec. exact Hno.
Qed.

(** The last piece of a split has no separator in it, and the string is
    that piece, possibly after a prefix that ends with the separator. *)
Lemma split_last_piece sep s piece :
  index_last (str.split sep s) = inr piece ->
  str.contains piece sep = false /\
  (s = piece \/ exists prefix, s = (prefix ++ String sep piece)%string).
Proof.
  revert piece. induction s as [|c s IH]; intros piece; cbn.
  - intros [= <-]. auto.
  - destruct (Ascii.eqb c sep) eqn:Ec.
    + rewrite index_last_cons by apply split_not_nil.
      intros H. destruct (IH _ H) as [Hno [->|[prefix ->]]]; split; auto.
      * right. exists "". apply Ascii.eqb_eq in Ec. subst c. reflexivity.
      * right. exists (String c prefix). reflexivity.
    + destruct (str.split sep s) as [|p ps] eqn:Es;
        [exfalso; eapply split_not_nil; eauto|].
      destruct ps as [|p' ps].
      * cbn. intros [= <-].
        destruct (split_single _ _ _ Es) as [-> Hno].
        split; [|left; reflexivity]. cbn. rewrite Ec. exact Hno.
      * change (index_last (String c p :: p' :: ps))
          with (index_last (p' :: ps)).
        change (index_last (p :: p' :: ps))
          with (index_last (p' :: ps)) in IH.
        intros H. destruct (IH _ H) as [Hno Hs]. split; [exact Hno|].
        destruct Hs as [->|[prefix ->]].
        -- rewrite (split_no_separator _ _ Hno) in Es. discriminate.
        -- right. exists (String c prefix). reflexivity.
Qed.

(** ** Laws of the method monad *)

Section MonadLaws.
Context {W : Type}.
Variable collaborators : platform W.

(** *** Re-raising *)

Lemma reraises_silent {A : Type} (m : M (W:=W) A) :
  (forall me w, trace (m me w) = []) -> reraises m.
Proof. intros H me w ev e Hin. rewrite H in Hin. destruct Hin. Qed.

Lemma reraises_ret {A : Type} (a : A) : reraises (W:=W) (ret a).
Proof. apply reraises_silent. reflexivity. Qed.

Lemma reraises_raise {A : Type} (e : exn) : reraises (W:=W) (raise (A:=A) e).
Proof. apply reraises_silent. reflexivity. Qed.

Lemma reraises_get_self : reraises (W:=W) get_self.
Proof. apply reraises_silent. reflexivity. Qed.

Lemma reraises_assign update : reraises (W:=W) (assign update).
Proof. apply reraises_silent. reflexivity. Qed.

Lemma reraises_lift {A : Type} (r : exn + A) : reraises (W:=W) (lift r).
Proof. destruct r; apply reraises_silent; reflexivity. Qed.

Lemma reraises_local {A : Type} name (slot : option A) :
  reraises (W:=W) (local name slot).
Proof. destruct slot; apply reraises_silent; reflexivity. Qed.

Lemma reraises_logging_info format args :
  reraises (W:=W) (logging_info format args).
Proof.
  intros me w ev e [<-|[]]. discriminate.
Qed.

Lemma reraises_invoke c : reraises (invoke collaborators c).
Proof.
  intros me w ev e. unfold invoke.
  destruct (collaborators c w) as [answer w']. cbn.
  intros [<-|[]]. destruct answer as [e'|a]; cbn; [|discriminate].
  intros [= ->]. auto.
Qed.

Lemma reraises_bind {A B : Type} (m : M A) (k : A -> M (W:=W) B) :
  reraises m -> (forall a, reraises (k a)) -> reraises (bind m k).
Proof.
  intros Hm Hk me w ev e. unfold bind.
  destruct (outcome (m me w)) as [e'|a] eqn:E; cbn.
  - intros Hin Hev. destruct (Hm me w ev e Hin Hev) as [Ho Hl].
    rewrite E in Ho. injection Ho as ->. split; [reflexivity | exact Hl].
  - intros Hin Hev. apply in_app_or in Hin. destruct Hin as [Hin|Hin].
    + destruct (Hm me w ev e Hin Hev) as [Ho _]. congruence.
    + destruct (Hk a _ _ ev e Hin Hev) as [Ho Hl]. split; [exact Ho|].
      rewrite last_app, Hl. reflexivity.
Qed.

Lemma reraises_if {A : Type} (b : bool) (m1 m2 : M (W:=W) A) :
  reraises m1 -> reraises m2 -> reraises (if b then m1 else m2).
Proof. destruct b; auto. Qed.

Lemma reraises_for_each {A : Type} (xs : list A) (body : A -> M (W:=W) unit) :
  (forall x, reraises (body x)) -> reraises (for_each xs body).
Proof.
  intros Hbody. induction xs as [|x xs IH]; cbn.
  - apply reraises_ret.
  - apply reraises_bind; auto.
Qed.

(** *** Attributes left alone *)

Section Keeps.
Context {X : Type}.
Variable f : self.t -> X.

Lemma keeps_ret {A : Type} (a : A) : keeps (W:=W) f (ret a).
Proof. intros me w. reflexivity. Qed.

Lemma keeps_raise {A : Type} (e : exn) : keeps (W:=W) f (raise (A:=A) e).
Proof. intros me w. reflexivity. Qed.

Lemma keeps_get_self : keeps (W:=W) f get_self.
Proof. intros me w. reflexivity. Qed.

Lemma keeps_lift {A : Type} (r : exn + A) : keeps (W:=W) f (lift r).
Proof. destruct r; intros me w; reflexivity. Qed.

Lemma keeps_local {A : Type} name (slot : option A) :
  keeps (W:=W) f (local name slot).
Proof. destruct slot; intros me w; reflexivity. Qed.

Lemma keeps_logging_info format args :
  keeps (W:=W) f (logging_info format args).
Proof. intros me w. reflexivity. Qed.

Lemma keeps_invoke c : keeps f (invoke collaborators c).
Proof.
  intros me w. unfold invoke. destruct (collaborators c w). reflexivity.
Qed.

Lemma keeps_assign update :
  (forall s, f (update s) = f s) -> keeps (W:=W) f (assign update).
Proof. intros H me w. apply H. Qed.

Lemma keeps_bind {A B : Type} (m : M A) (k : A -> M (W:=W) B) :
  keeps f m -> (forall a, keeps f (k a)) -> keeps f (bind m k).
Proof.
  intros Hm Hk me w. unfold bind.
  destruct (outcome (m me w)) as [e|a]; cbn.
  - apply Hm.
  - rewrite Hk. apply Hm.
Qed.

Lemma keeps_if {A : Type} (b : bool) (m1 m2 : M (W:=W) A) :
  keeps f m1 -> keeps f m2 -> keeps f (if b then m1 else m2).
Proof. destruct b; auto. Qed.

Lemma keeps_for_each {A : Type} (xs : list A) (body : A -> M (W:=W) unit) :
  (forall x, keeps f (body x)) -> keeps f (for_each xs body).
Proof.
  intros Hbody. induction xs as [|x xs IH]; cbn.
  - apply keeps_ret.
  - apply keeps_bind; auto.
Qed.
End Keeps.
End MonadLaws.

(** Walking through a method body, one statement at a time. *)
Ltac reraise_steps :=
  repeat first
    [ apply reraises_bind; [|intros]
    | apply reraises_if
    | apply reraises_for_each; intros
    | match goal with
      | |- reraises (invoke ?p ?c) => exact (reraises_invoke p c)
      end
    | apply reraises_ret
    | apply reraises_raise
    | apply reraises_get_self
    | apply reraises_assign
    | apply reraises_lift
    | apply reraises_local
    | apply reraises_logging_info ].

Ltac keep_steps :=
  repeat first
    [ apply keeps_bind; [|intros]
    | apply keeps_if
    | apply keeps_for_each; intros
    | match goal with
      | |- keeps ?f (invoke ?p ?c) => exact (keeps_invoke p f c)
      end
    | apply keeps_ret
    | apply keeps_raise
    | apply keeps_get_self
    | apply keeps_lift
    | apply keeps_local
    | apply keeps_logging_info
    | apply keeps_assign; intros; reflexivity ].

(** ** Error propagation *)

Section Propagation.
Context {W : Type}.
Variable collaborators : platform W.

Lemma run_query_reraises dest sql file :
  reraises (CrystalValue.run_query collaborators dest sql file).
Proof. unfold CrystalValue.run_query. reraise_steps. Qed.

(** C7: no method recovers from a collaborator failure.  In every run of
    every method, an exception raised by a collaborator call is the
    outcome of the method, and the failed call is the last thing the
    method did (nothing is retried, nothing is substituted). *)
Theorem collaborator_errors_propagate :
  (forall table_name row_count start_date end_date,
      reraises (CrystalValue.create_synthetic_data
                  collaborators table_name row_count start_date end_date)) /\
  (forall table places summary,
      reraises (CrystalValue.run_data_checks collaborators table places summary)) /\
  (forall table query_type file,
      reraises (CrystalValue.feature_engineer collaborators table query_type file)) /\
  (forall dest sql file,
      reraises (CrystalValue.run_query collaborators dest sql file)) /\
  (forall dataset_name model_name split_column target objective budget,
      reraises (CrystalValue.train collaborators dataset_name model_name
                  split_column target objective budget)) /\
  (forall input model_id model_name dest,
      reraises (CrystalValue.batch_predict collaborators input model_id
                  model_name dest)) /\
  (forall model_id, reraises (CrystalValue.deploy_model collaborators model_id)) /\
  (forall endpoint_id table bins,
      reraises (CrystalValue.evaluate_model collaborators endpoint_id table bins)).
Proof.
  repeat apply conj.
  - intros table_name row_count start_date end_date.
    unfold CrystalValue.create_synthetic_data. cbv zeta. reraise_steps.
  - intros table places summary.
    unfold CrystalValue.run_data_checks. cbv zeta. reraise_steps.
  - intros table query_type file.
    unfold CrystalValue.feature_engineer. cbv zeta. reraise_steps.
  - intros dest sql file. apply run_query_reraises.
  - intros dataset_name model_name split_column target objective budget.
    unfold CrystalValue.train. cbv zeta. reraise_steps.
  - intros input model_id model_name dest.
    unfold CrystalValue.batch_predict. cbv zeta. reraise_steps.
  - intros model_id.
    unfold CrystalValue.deploy_model. cbv zeta. reraise_steps.
  - intros endpoint_id table bins.
    unfold CrystalValue.evaluate_model. cbv zeta. reraise_steps.
Qed.
End Propagation.

(** Running a method body: unfold the monad, then look at the answer of
    each collaborator call in turn. *)
Ltac run_body :=
  cbv beta zeta delta [bind ret raise get_self assign invoke lift local
                         logging_info kwarg];
  cbn.

Ltac answer_calls :=
  repeat match goal with
    | |- context [?p ?c ?w] =>
        match type of p with
        | platform _ =>
            let a := fresh "answer" in
            let w' := fresh "w" in
            let E := fresh "E" in
            destruct (p c w) as [[a|a] w'] eqn:E; cbn
        end
    end.

(** ** Identifier fallbacks *)

Section Fallbacks.
Context {W : Type}.
Variable collaborators : platform W.

(** C3: [batch_predict] sends the stored [model_id] when its argument is
    falsy, and the argument itself when it is truthy; in the latter case
    the run does not depend on the stored attribute. *)
Theorem batch_predict_model_fallback
    (input_table_name : string) (model_id : option string)
    (model_name destination_table : option string)
    (me : self.t) (w : W) :
  let run me :=
    CrystalValue.batch_predict collaborators input_table_name model_id
      model_name destination_table me w in
  let request model :=
    automl_create_batch_predictions
      (project (self.bigquery_client me)) (self.dataset_id me) model
      input_table_name (self.location me) in
  (truth model_id = false ->
   exists answer rest,
     trace (run me) = Called (request (self.model_id me)) answer :: rest) /\
  (truth model_id = true ->
   (exists answer rest,
       trace (run me) = Called (request model_id) answer :: rest) /\
   forall stored,
     trace (run (self.with_model_id stored me)) = trace (run me) /\
     outcome (run (self.with_model_id stored me)) = outcome (run me)).
Proof.
  cbv zeta. unfold CrystalValue.batch_predict. split; intros Hm.
  - rewrite Hm. run_body. answer_calls; eauto.
  - rewrite Hm. split; [|intros stored]; run_body; answer_calls; eauto.
Qed.

(** C10: [deploy_model] falls back to the stored [model_id], and
    [evaluate_model] to the stored [endpoint_id], when the argument is
    falsy; a truthy argument is passed on as it is. *)
Theorem deploy_and_evaluate_fallback
    (model_id endpoint_id table_evaluation_stats : option string)
    (number_bins : option Z) (me : self.t) (w : W) :
  let deploy := CrystalValue.deploy_model collaborators model_id me w in
  let evaluate :=
    CrystalValue.evaluate_model collaborators endpoint_id
      table_evaluation_stats number_bins me w in
  let deploy_request model :=
    automl_deploy_model (self.bigquery_client me) model (self.location me) in
  let evaluate_request endpoint :=
    model_evaluation_evaluate_model_predictions
      (self.bigquery_client me) (self.dataset_id me) endpoint
      (self.model_id me)
      (kwarg table_evaluation_stats "crystalvalue_evaluation")
      (self.location me) (kwarg number_bins 10%Z) in
  (truth model_id = false ->
   exists answer rest,
     trace deploy = Called (deploy_request (self.model_id me)) answer :: rest) /\
  (truth model_id = true ->
   exists answer rest,
     trace deploy = Called (deploy_request model_id) answer :: rest) /\
  (truth endpoint_id = false ->
   exists answer,
     trace evaluate =
       [Called (evaluate_request (self.endpoint_id me)) answer]) /\
  (truth endpoint_id = true ->
   exists answer,
     trace evaluate = [Called (evaluate_request endpoint_id) answer]).
Proof.
  cbv zeta. unfold CrystalValue.deploy_model, CrystalValue.evaluate_model.
  repeat apply conj; intros Hm; rewrite Hm; run_body; answer_calls; eauto.
  all: destruct (index_first _); cbn; eauto.
  all: destruct (index_last _); cbn; eauto.
Qed.
End Fallbacks.

(** ** Stored identifiers *)

Section Identifiers.
Context {W : Type}.
Variable collaborators : platform W.

(** C4: a successful [train] stores the name of the model the training
    call returned in [model_id]; a successful [deploy_model] stores in
    [endpoint_id] the last piece, split at the slashes, of the endpoint
    of the returned model's first deployed model; no other method
    assigns either attribute. *)
Theorem identifiers_persisted :
  (forall dataset_name model_name split_column target objective budget
          me w model,
      let r := CrystalValue.train collaborators dataset_name model_name
                 split_column target objective budget me w in
      outcome r = inr model ->
      self.model_id (self_after r) = Some (name model) /\
      exists ev, last (trace r) = Some ev /\ trained_model ev = Some model) /\
  (forall model_id me w model,
      let r := CrystalValue.deploy_model collaborators model_id me w in
      outcome r = inr model ->
      (exists ev, last (trace r) = Some ev /\ deployed_model ev = Some model) /\
      exists first rest piece,
        deployed_models (gca_resource model) = first :: rest /\
        index_last (str.split "/" (endpoint first)) = inr piece /\
        self.endpoint_id (self_after r) = Some piece /\
        str.contains piece "/" = false /\
        (endpoint first = piece \/
         exists prefix, endpoint first = (prefix ++ String "/" piece)%string)) /\
  (forall dataset_name model_name split_column target objective budget,
      keeps self.endpoint_id
        (CrystalValue.train collaborators dataset_name model_name
           split_column target objective budget)) /\
  (forall model_id,
      keeps self.model_id (CrystalValue.deploy_model collaborators model_id)) /\
  (forall table_name row_count start_date end_date,
      keeps identifiers
        (CrystalValue.create_synthetic_data collaborators table_name
           row_count start_date end_date)) /\
  (forall table places summary,
      keeps identifiers
        (CrystalValue.run_data_checks collaborators table places summary)) /\
  (forall table query_type file,
      keeps identifiers
        (CrystalValue.feature_engineer collaborators table query_type file)) /\
  (forall dest sql file,
      keeps identifiers (CrystalValue.run_query collaborators dest sql file)) /\
  (forall input model_id model_name dest,
      keeps identifiers
        (CrystalValue.batch_predict collaborators input model_id
           model_name dest)) /\
  (forall endpoint_id table bins,
      keeps identifiers
        (CrystalValue.evaluate_model collaborators endpoint_id table bins)).
Proof.
  repeat apply conj.
  - intros dataset_name model_name split_column target objective budget
           me w model.
    cbv zeta. unfold CrystalValue.train. run_body. answer_calls;
      try discriminate.
    intros [= <-]. split; [reflexivity|].
    eexists. split; reflexivity.
  - intros model_id me w model.
    cbv zeta. unfold CrystalValue.deploy_model. run_body. answer_calls;
      try discriminate.
    destruct (deployed_models (gca_resource answer)) as [|first rest] eqn:Ed;
      cbn; [discriminate|].
    destruct (index_last (str.split "/" (endpoint first))) as [e|piece] eqn:El;
      cbn; [discriminate|].
    intros [= <-]. split; [eexists; split; reflexivity|].
    exists first, rest, piece.
    destruct (split_last_piece _ _ _ El) as [Hno Hs]. auto.
  - intros dataset_name model_name split_column target objective budget.
    unfold CrystalValue.train. cbv zeta. keep_steps.
  - intros model_id. unfold CrystalValue.deploy_model. cbv zeta. keep_steps.
  - intros table_name row_count start_date end_date.
    unfold CrystalValue.create_synthetic_data. cbv zeta. keep_steps.
  - intros table places summary.
    unfold CrystalValue.run_data_checks. cbv zeta. keep_steps.
  - intros table query_type file.
    unfold CrystalValue.feature_engineer. cbv zeta. keep_steps.
  - intros dest sql file.
    unfold CrystalValue.run_query. keep_steps.
  - intros input model_id model_name dest.
    unfold CrystalValue.batch_predict. cbv zeta. keep_steps.
  - intros endpoint_id table bins.
    unfold CrystalValue.evaluate_model. cbv zeta. keep_steps.
Qed.
End Identifiers.

(** ** Feature engineering *)

Lemma dict_get_key {V : Type} (d : list (string * V)) (key : string) :
  In key (map fst d) -> exists v, dict_get d key = inr v.
Proof.
  induction d as [|[k v] d IH]; cbn; [intros []|].
  destruct (String.eqb k key) eqn:E; [eauto|].
  intros [->|H]; [|auto]. rewrite String.eqb_refl in E. discriminate.
Qed.

Lemma detection_ignore_columns_ids (s : self.t) :
  In (self.customer_id_column s) (detection_ignore_columns s) /\
  In (self.date_column s) (detection_ignore_columns s).
Proof.
  unfold detection_ignore_columns.
  destruct (self.ignore_columns s) as [[| | |]|]; cbn; auto.
Qed.

(** Sequencing is associative, run by run. *)
Lemma bind_assoc {W A B C : Type} (m : M (W:=W) A) (k : A -> M B)
    (k' : B -> M C) me w :
  bind (bind m k) k' me w = bind m (fun a => bind (k a) k') me w.
Proof.
  unfold bind. destruct (outcome (m me w)) as [e|a]; cbn; [reflexivity|].
  destruct (outcome (k a (self_after (m me w)) (world_after (m me w))))
    as [e|b]; cbn; [reflexivity|].
  rewrite app_assoc. reflexivity.
Qed.

(** Equations for running one statement followed by the rest. *)
Section Stepping.
Context {W : Type}.
Variable collaborators : platform W.

Lemma run_eta {A : Type} (r : Run W A) :
  {| outcome := outcome r; self_after := self_after r;
     world_after := world_after r; trace := trace r |} = r.
Proof. destruct r; reflexivity. Qed.

Lemma bind_get_self {A : Type} (k : self.t -> M (W:=W) A) me w :
  bind get_self k me w = k me me w.
Proof. unfold bind; cbn. apply run_eta. Qed.

Lemma bind_assign {A : Type} update (k : unit -> M (W:=W) A) me w :
  bind (assign update) k me w = k tt (update me) w.
Proof. unfold bind; cbn. apply run_eta. Qed.

Lemma bind_ret {A B : Type} (a : A) (k : A -> M (W:=W) B) me w :
  bind (ret a) k me w = k a me w.
Proof. unfold bind; cbn. apply run_eta. Qed.

Lemma bind_raise {A B : Type} (e : exn) (k : A -> M (W:=W) B) me w :
  bind (raise e) k me w =
  {| outcome := inl e; self_after := me; world_after := w; trace := [] |}.
Proof. reflexivity. Qed.

Lemma bind_invoke {B : Type} (c : call) (k : resp c -> M (W:=W) B) me w :
  bind (invoke collaborators c) k me w =
  match collaborators c w with
  | (inl e, w1) =>
      {| outcome := inl e; self_after := me; world_after := w1;
         trace := [Called c (inl e)] |}
  | (inr a, w1) =>
      let r := k a me w1 in
      {| outcome := outcome r; self_after := self_after r;
         world_after := world_after r;
         trace := Called c (inr a) :: trace r |}
  end.
Proof.
  unfold bind, invoke. destruct (collaborators c w) as [[e|a] w1]; reflexivity.
Qed.

Lemma bind_only_logs {A B : Type} (m : M A) (a : A) (k : A -> M (W:=W) B)
    me w :
  only_logs m a ->
  exists logs,
    Forall is_log logs /\
    let r := k a me w in
    bind m k me w =
    {| outcome := outcome r; self_after := self_after r;
       world_after := world_after r; trace := logs ++ trace r |}.
Proof.
  intros Hm. destruct (Hm me w) as (Ho & Hs & Hw & Ht).
  exists (trace (m me w)). split; [exact Ht|].
  unfold bind. rewrite Ho, Hs, Hw. reflexivity.
Qed.

Lemma bind_failed {A B : Type} (m : M A) (k : A -> M (W:=W) B) me w e :
  outcome (m me w) = inl e ->
  bind m k me w =
  {| outcome := inl e; self_after := self_after (m me w);
     world_after := world_after (m me w); trace := trace (m me w) |}.
Proof. intros H. unfold bind. rewrite H. reflexivity. Qed.

Lemma bind_done {A B : Type} (m : M A) (k : A -> M (W:=W) B) me w a :
  outcome (m me w) = inr a ->
  let r := k a (self_after (m me w)) (world_after (m me w)) in
  bind m k me w =
  {| outcome := outcome r; self_after := self_after r;
     world_after := world_after r; trace := trace (m me w) ++ trace r |}.
Proof. intros H. unfold bind. rewrite H. reflexivity. Qed.
End Stepping.

Section FeatureEngineering.
Context {W : Type}.
Variable collaborators : platform W.

Lemma only_logs_for_each {A : Type} (xs : list A)
    (body : A -> M (W:=W) unit) :
  (forall x, In x xs -> only_logs (body x) tt) ->
  only_logs (for_each xs body) tt.
Proof.
  induction xs as [|x xs IH]; intros Hbody me w; cbn.
  - repeat split. constructor.
  - unfold bind.
    destruct (Hbody x (or_introl eq_refl) me w) as (Ho & Hs & Hw & Ht).
    rewrite Ho, Hs, Hw. cbn.
    destruct (IH (fun y Hy => Hbody y (or_intror Hy)) me w)
      as (Ho' & Hs' & Hw' & Ht').
    repeat split; auto. apply Forall_app. auto.
Qed.

Lemma logging_loop_only_logs (features_types : FeatureTypes) :
  only_logs (W:=W)
    (for_each (map fst features_types) (fun feature_type =>
       bind (lift (dict_get features_types feature_type)) (fun features =>
         for_each features (fun feature =>
           logging_info "Detected %r feature %r" [feature_type; feature]))))
    tt.
Proof.
  apply only_logs_for_each. intros feature_type Hin me w.
  destruct (dict_get_key _ _ Hin) as [features ->].
  unfold bind. cbn.
  assert (Hinner : only_logs (W:=W)
            (for_each features (fun feature =>
               logging_info "Detected %r feature %r" [feature_type; feature]))
            tt).
  { apply only_logs_for_each. intros feature _ me' w'. cbn.
    repeat split. repeat constructor. }
  destruct (Hinner me w) as (Ho & Hs & Hw & Ht).
  rewrite Ho, Hs, Hw. auto.
Qed.

(** The assignment that opens the detection block: it overwrites
    [ignore_columns] when the old value can be added to a list, and raises
    [TypeError] otherwise. *)
Lemma overwrite_ignore_columns_run {A : Type} (k : unit -> M (W:=W) A)
    (me : self.t) (w : W) :
  concatenable (self.ignore_columns me) = true ->
  bind (overwrite_ignore_columns me) k me w =
  k tt (self.with_ignore_columns
          (Some (py_list (detection_ignore_columns me))) me) w.
Proof.
  unfold overwrite_ignore_columns, detection_ignore_columns.
  destruct (self.ignore_columns me) as [[[|c cs]|[|c cs]|items|[|c text]]|];
    cbn [concatenable truth truth_optional truth_collection truth_list
           truth_str negb];
    try discriminate;
    try (destruct (bool_decide (items = ∅)); cbn [negb]; try discriminate);
    intros _; rewrite ?bind_assoc; cbn [list_add lift];
    rewrite ?bind_ret, bind_assign; reflexivity.
Qed.

Lemma overwrite_ignore_columns_fails {A : Type} (k : unit -> M (W:=W) A)
    (me : self.t) (w : W) :
  concatenable (self.ignore_columns me) = false ->
  bind (overwrite_ignore_columns me) k me w =
  {| outcome := inl (TypeError (type_name (self.ignore_columns me)));
     self_after := me; world_after := w; trace := [] |}.
Proof.
  unfold overwrite_ignore_columns.
  destruct (self.ignore_columns me) as [[[|c cs]|[|c cs]|items|[|c text]]|];
    cbn [concatenable truth truth_optional truth_collection truth_list
           truth_str negb];
    try discriminate;
    try (destruct (bool_decide (items = ∅)); cbn [negb]; try discriminate);
    intros _; rewrite ?bind_assoc; cbn [list_add lift type_name];
    rewrite bind_raise; reflexivity.
Qed.

(** What the detection step does, by the detector's answer. *)
Lemma detect_features_run (table : string) (me : self.t) (w : W) :
  concatenable (self.ignore_columns me) = true ->
  let r := detection_block collaborators table me me w in
  let me1 :=
    self.with_ignore_columns (Some (py_list (detection_ignore_columns me))) me in
  match collaborators (detect_request table me) w with
  | (inl e, w1) =>
      outcome r = inl e /\ self_after r = me1 /\ world_after r = w1 /\
      trace r = [Called (detect_request table me) (inl e)]
  | (inr detected, w1) =>
      self_after r = self.with_features_types (Some detected) me1 /\
      world_after r = w1 /\
      if truth detected then
        outcome r = inr tt /\
        exists logs,
          trace r = Called (detect_request table me) (inr detected) :: logs /\
          Forall is_log logs
      else
        outcome r = inl (ValueError "No features detected") /\
        trace r = [Called (detect_request table me) (inr detected)]
  end.
Proof.
  intros Hlist. cbv zeta. unfold detection_block.
  rewrite (overwrite_ignore_columns_run _ _ _ Hlist).
  rewrite bind_get_self, bind_invoke.
  cbn [self.bigquery_client self.dataset_id self.ignore_columns
         self.with_ignore_columns].
  unfold detect_request.
  destruct (collaborators _ w) as [[e|detected] w1]; [auto|].
  cbv zeta. rewrite bind_assign, bind_get_self.
  cbn [self.features_types self.with_features_types default from_option id
         outcome self_after world_after trace].
  change (truth (Some detected)) with (truth detected).
  destruct (truth detected) eqn:Et; cbn [negb].
  - rewrite bind_ret.
    match goal with
    | |- context [for_each ?xs ?body ?me' ?w'] =>
        destruct (logging_loop_only_logs detected me' w')
          as (Ho & Hs & Hw & Ht)
    end.
    rewrite Ho, Hs, Hw. eauto 10.
  - rewrite bind_raise. cbn. auto.
Qed.

Lemma feature_engineer_blocks table query_type file :
  CrystalValue.feature_engineer collaborators table query_type file =
  bind get_self (fun me =>
    bind (if negb (truth (self.features_types me))
          then detection_block collaborators table me else ret tt)
         (fun _ => build_and_run collaborators table query_type file)).
Proof. reflexivity. Qed.

(** With a feature-type mapping in place nothing is detected. *)
Lemma feature_engineer_skips table query_type file me w :
  truth (self.features_types me) = true ->
  CrystalValue.feature_engineer collaborators table query_type file me w =
  build_and_run collaborators table query_type file me w.
Proof.
  intros H. rewrite feature_engineer_blocks, bind_get_self, H. cbn [negb].
  rewrite bind_ret. reflexivity.
Qed.

(** Without one, the detection block runs first. *)
Lemma feature_engineer_detects table query_type file me w :
  truth (self.features_types me) = false ->
  let r := CrystalValue.feature_engineer collaborators table query_type
             file me w in
  let d := detection_block collaborators table me me w in
  match outcome d with
  | inl e =>
      outcome r = inl e /\ self_after r = self_after d /\
      world_after r = world_after d /\ trace r = trace d
  | inr _ =>
      let t := build_and_run collaborators table query_type file
                 (self_after d) (world_after d) in
      outcome r = outcome t /\ self_after r = self_after t /\
      world_after r = world_after t /\ trace r = trace d ++ trace t
  end.
Proof.
  intros H. cbv zeta.
  rewrite feature_engineer_blocks, bind_get_self, H. cbn [negb].
  destruct (outcome (detection_block collaborators table me me w))
    as [e|[]] eqn:Ed.
  - rewrite (bind_failed _ _ _ _ _ Ed). auto.
  - rewrite (bind_done _ _ _ _ _ Ed). auto.
Qed.

(** The statements after the detection block, by the answers of the two
    calls they make. *)
Lemma build_and_run_run table query_type file me w :
  let r := build_and_run collaborators table query_type file me w in
  let kind := kwarg query_type "train_query" in
  self_after r = me /\
  match collaborators (build_request table query_type file me) w with
  | (inl e, w1) =>
      outcome r = inl e /\ world_after r = w1 /\
      trace r = [Called (build_request table query_type file me) (inl e)]
  | (inr sql, w1) =>
      let built := Called (build_request table query_type file me) (inr sql) in
      let destination :=
        if String.eqb kind "train_query" then
          Some (self.training_table_name me)
        else if String.eqb kind "predict_query" then
          Some (self.predict_table_name me)
        else None in
      match destination with
      | None =>
          outcome r = inl (UnboundLocalError "table_name") /\
          world_after r = w1 /\ trace r = [built]
      | Some table_name =>
          let (answer, w2) :=
            collaborators (run_query_request table_name sql me) w1 in
          outcome r = answer /\ world_after r = w2 /\
          trace r =
            [built; Called (run_query_request table_name sql me) answer]
      end
  end.
Proof.
  cbv zeta. unfold build_and_run, build_request, run_query_request,
    CrystalValue.run_query.
  cbv zeta. rewrite bind_get_self, bind_invoke.
  destruct (collaborators _ w) as [[e|sql] w1]; [auto|].
  cbv zeta.
  destruct (String.eqb (kwarg query_type "train_query") "train_query");
    [|destruct (String.eqb (kwarg query_type "train_query") "predict_query")].
  all: cbn [local]; rewrite ?bind_ret, ?bind_raise, ?bind_get_self; cbn.
  3: auto.
  all: unfold invoke; destruct (collaborators _ w1) as [answer w2]; cbn; auto.
Qed.

(** Without a feature-type mapping, an [ignore_columns] that cannot be
    added to a list ends the method at once. *)
Lemma feature_engineer_type_error table query_type file me w :
  truth (self.features_types me) = false ->
  concatenable (self.ignore_columns me) = false ->
  CrystalValue.feature_engineer collaborators table query_type file me w =
  {| outcome := inl (TypeError (type_name (self.ignore_columns me)));
     self_after := me; world_after := w; trace := [] |}.
Proof.
  intros H Hc. rewrite feature_engineer_blocks, bind_get_self, H. cbn [negb].
  unfold detection_block. rewrite bind_assoc.
  apply overwrite_ignore_columns_fails. exact Hc.
Qed.

(** A whole run that starts without a feature-type mapping. *)
Lemma feature_engineer_detection_run table query_type file me w :
  truth (self.features_types me) = false ->
  concatenable (self.ignore_columns me) = true ->
  let r := CrystalValue.feature_engineer collaborators table query_type
             file me w in
  let me1 :=
    self.with_ignore_columns (Some (py_list (detection_ignore_columns me))) me in
  match collaborators (detect_request table me) w with
  | (inl e, w1) =>
      outcome r = inl e /\ self_after r = me1 /\ world_after r = w1 /\
      trace r = [Called (detect_request table me) (inl e)]
  | (inr detected, w1) =>
      let me2 := self.with_features_types (Some detected) me1 in
      self_after r = me2 /\
      if truth detected then
        let t := build_and_run collaborators table query_type file me2 w1 in
        outcome r = outcome t /\ world_after r = world_after t /\
        exists logs,
          Forall is_log logs /\
          trace r =
            Called (detect_request table me) (inr detected)
              :: logs ++ trace t
      else
        outcome r = inl (ValueError "No features detected") /\
        world_after r = w1 /\
        trace r = [Called (detect_request table me) (inr detected)]
  end.
Proof.
  intros H Hlist. cbv zeta.
  pose proof (feature_engineer_detects table query_type file me w H) as Hr.
  pose proof (detect_features_run table me w Hlist) as Hd.
  cbv zeta in Hr, Hd.
  destruct (collaborators (detect_request table me) w)
    as [[e|detected] w1].
  - destruct Hd as (Ho & Hs & Hw & Ht). rewrite Ho in Hr.
    destruct Hr as (-> & -> & -> & ->). auto.
  - destruct Hd as (Hs & Hw & Hd).
    destruct (truth detected).
    + destruct Hd as (Ho & logs & Ht & Hlogs). rewrite Ho in Hr.
      destruct Hr as (Hro & Hrs & Hrw & Hrt).
      rewrite Hs, Hw in Hro, Hrs, Hrw, Hrt.
      split.
      * rewrite Hrs.
        apply (proj1 (build_and_run_run table query_type file _ _)).
      * rewrite Hro, Hrw, Hrt, Ht. eauto.
    + destruct Hd as (Ho & Ht). rewrite Ho in Hr.
      destruct Hr as (-> & -> & -> & ->). auto.
Qed.

Lemma log_builds_nothing ev : is_log ev -> built_query ev = None.
Proof. destruct ev; [intros []|reflexivity]. Qed.

Lemma log_raises_nothing ev : is_log ev -> raised ev = None.
Proof. destruct ev; [intros []|reflexivity]. Qed.

(** C2: when [feature_engineer] runs detection (no feature types set,
    and an [ignore_columns] that is unset, empty or a list, so that the
    detector is reached) and the detector answers with an empty mapping,
    the method raises [ValueError('No features detected')] and the
    detector call is the only call it made; when the answer classifies at
    least one column, the method goes on to build
    the query from the detected mapping, and any exception it ends with
    was raised by a collaborator or by the table dispatch. *)
Theorem no_features_detected
    (table : string) (query_type file : option string)
    (me : self.t) (w : W) (detected : FeatureTypes) (w1 : W) :
  truth (self.features_types me) = false ->
  concatenable (self.ignore_columns me) = true ->
  collaborators (detect_request table me) w = (inr detected, w1) ->
  let r := CrystalValue.feature_engineer collaborators table query_type
             file me w in
  let me2 :=
    self.with_features_types (Some detected)
      (self.with_ignore_columns (Some (py_list (detection_ignore_columns me))) me) in
  (truth detected = false ->
   outcome r = inl (ValueError "No features detected") /\
   trace r = [Called (detect_request table me) (inr detected)] /\
   world_after r = w1) /\
  (classified_columns detected <> [] ->
   (exists logs answer rest,
       Forall is_log logs /\
       trace r =
         Called (detect_request table me) (inr detected)
           :: logs
           ++ Called (build_request table query_type file me2) answer
           :: rest) /\
   (forall e, outcome r = inl e ->
              e = UnboundLocalError "table_name" \/
              exists ev, In ev (trace r) /\ raised ev = Some e)).
Proof.
  intros Hunset Hlist Hdetect. cbv zeta.
  pose proof (feature_engineer_detection_run table query_type file me w
                Hunset Hlist) as Hr.
  cbv zeta in Hr. rewrite Hdetect in Hr. destruct Hr as (Hs & Hr).
  split.
  - intros Hempty. destruct detected as [|entry entries];
      [|discriminate Hempty].
    cbn [truth truth_list] in Hr. destruct Hr as (-> & -> & ->). auto.
  - intros Hsome. destruct detected as [|entry entries];
      [contradiction Hsome; reflexivity|].
    cbn [truth truth_list] in Hr.
    destruct Hr as (Ho & Hw & logs & Hlogs & Ht).
    rewrite Ho, Ht. clear Ho Hw Ht.
    set (me2 := self.with_features_types _ _).
    destruct (build_and_run_run table query_type file me2 w1) as (_ & Ht).
    cbv zeta in Ht.
    destruct (collaborators (build_request table query_type file me2) w1)
      as [[e|sql] w2].
    + destruct Ht as (-> & _ & ->). split; [eauto 10|].
      intros e' [= <-]. right. eexists. split.
      * right. apply in_or_app. right. left. reflexivity.
      * reflexivity.
    + destruct (if String.eqb _ _ then _ else _) as [table_name|].
      * destruct (collaborators _ w2) as [answer w3].
        destruct Ht as (-> & _ & ->). split; [eauto 10|].
        intros e' ->. right. eexists. split.
        -- right. apply in_or_app. right. right. left. reflexivity.
        -- reflexivity.
      * destruct Ht as (-> & _ & ->). split; [eauto 10|].
        intros e' [= <-]. left. reflexivity.
Qed.

Lemma build_and_run_dispatch table query_type file me w ev sql :
  let kind := kwarg query_type "train_query" in
  let t := build_and_run collaborators table query_type file me w in
  In ev (trace t) -> built_query ev = Some sql ->
  (kind = "train_query" ->
   exists answer,
     last (trace t) =
       Some (Called (run_query_request (self.training_table_name me) sql me)
               answer) /\
     outcome t = answer) /\
  (kind = "predict_query" ->
   exists answer,
     last (trace t) =
       Some (Called (run_query_request (self.predict_table_name me) sql me)
               answer) /\
     outcome t = answer) /\
  (kind <> "train_query" -> kind <> "predict_query" ->
   outcome t = inl (UnboundLocalError "table_name") /\
   last (trace t) = Some ev).
Proof.
  cbv zeta.
  destruct (build_and_run_run table query_type file me w) as (_ & Ht).
  cbv zeta in Ht.
  destruct (collaborators (build_request table query_type file me) w)
    as [[e|sql'] w1].
  - destruct Ht as (_ & _ & ->). intros [<-|[]]. discriminate.
  - destruct (String.eqb (kwarg query_type "train_query") "train_query")
      eqn:Etrain.
    + apply String.eqb_eq in Etrain.
      destruct (collaborators _ w1) as [answer w2].
      destruct Ht as (-> & _ & ->).
      intros [<-|[<-|[]]]; [|discriminate]. intros [= ->].
      repeat apply conj.
      * intros _. exists answer. auto.
      * intros Hp. rewrite Etrain in Hp. discriminate.
      * intros Hn. contradiction.
    + apply String.eqb_neq in Etrain.
      destruct (String.eqb (kwarg query_type "train_query") "predict_query")
        eqn:Epredict.
      * apply String.eqb_eq in Epredict.
        destruct (collaborators _ w1) as [answer w2].
        destruct Ht as (-> & _ & ->).
        intros [<-|[<-|[]]]; [|discriminate]. intros [= ->].
        repeat apply conj.
        -- intros Hp. contradiction.
        -- intros _. exists answer. auto.
        -- intros _ Hn. contradiction.
      * apply String.eqb_neq in Epredict.
        destruct Ht as (-> & _ & ->).
        intros [<-|[]]. intros [= ->].
        repeat apply conj; try contradiction. auto.
Qed.

(** C8: the destination table is chosen by [query_type].  Once the query
    is built, 'train_query' runs it into [training_table_name] and
    'predict_query' into [predict_table_name], and the outcome is that of
    running the query; with any other [query_type] the method ends in an
    unbound-local error on [table_name], and building the query was the
    last thing it did. *)
Theorem table_dispatch
    (table : string) (query_type file : option string)
    (me : self.t) (w : W) (ev : event) (sql : string) :
  let kind := kwarg query_type "train_query" in
  let r := CrystalValue.feature_engineer collaborators table query_type
             file me w in
  In ev (trace r) -> built_query ev = Some sql ->
  (kind = "train_query" ->
   exists answer,
     last (trace r) =
       Some (Called (run_query_request (self.training_table_name me) sql me)
               answer) /\
     outcome r = answer) /\
  (kind = "predict_query" ->
   exists answer,
     last (trace r) =
       Some (Called (run_query_request (self.predict_table_name me) sql me)
               answer) /\
     outcome r = answer) /\
  (kind <> "train_query" -> kind <> "predict_query" ->
   outcome r = inl (UnboundLocalError "table_name") /\
   last (trace r) = Some ev).
Proof.
  cbv zeta. destruct (truth (self.features_types me)) eqn:Hset.
  - rewrite (feature_engineer_skips _ _ _ _ _ Hset).
    apply build_and_run_dispatch.
  - destruct (concatenable (self.ignore_columns me)) eqn:Hlist;
      [|rewrite (feature_engineer_type_error _ _ _ _ _ Hset Hlist);
        intros []].
    pose proof (feature_engineer_detection_run table query_type file me w
                  Hset Hlist) as Hr.
    cbv zeta in Hr.
    destruct (collaborators (detect_request table me) w)
      as [[e|detected] w1].
    + destruct Hr as (_ & _ & _ & ->). intros [<-|[]]. discriminate.
    + destruct Hr as (_ & Hr). destruct (truth detected).
      * destruct Hr as (Ho & _ & logs & Hlogs & Ht).
        rewrite Ho, Ht. clear Ho Ht.
        set (me2 := self.with_features_types _ _).
        intros [<-|Hin]; [discriminate|]. intros Hbuilt.
        apply in_app_or in Hin. destruct Hin as [Hin|Hin].
        { rewrite Forall_forall in Hlogs.
          rewrite (log_builds_nothing ev) in Hbuilt; [discriminate|].
          apply Hlogs. apply list_elem_of_In. exact Hin. }
        pose proof (build_and_run_dispatch table query_type file me2 w1
                      ev sql Hin Hbuilt) as Ht.
        cbv zeta in Ht.
        assert (Hlast : forall x,
                   last (trace (build_and_run collaborators table
                                  query_type file me2 w1)) = Some x ->
                   last (Called (detect_request table me) (inr detected)
                           :: logs
                           ++ trace (build_and_run collaborators table
                                       query_type file me2 w1)) = Some x).
        { intros x Hx. rewrite app_comm_cons, last_app, Hx. reflexivity. }
        destruct Ht as (Htrain & Hpredict & Hother).
        repeat apply conj.
        -- intros Hk. destruct (Htrain Hk) as (answer & Hl & Ho).
           exists answer. split; [apply Hlast; exact Hl | exact Ho].
        -- intros Hk. destruct (Hpredict Hk) as (answer & Hl & Ho).
           exists answer. split; [apply Hlast; exact Hl | exact Ho].
        -- intros Hk1 Hk2. destruct (Hother Hk1 Hk2) as (Ho & Hl).
           split; [exact Ho | apply Hlast; exact Hl].
      * destruct Hr as (_ & _ & ->). intros [<-|[]]. discriminate.
Qed.
End FeatureEngineering.

(** ** What detection does to the instance *)

Lemma ignore_columns_after_detection {W : Type}
    (collaborators : platform W)
    (table : string) (query_type file : option string)
    (me : self.t) (w : W) :
  truth (self.features_types me) = false ->
  concatenable (self.ignore_columns me) = true ->
  self.ignore_columns
    (self_after (CrystalValue.feature_engineer collaborators table
                   query_type file me w)) =
  Some (py_list (detection_ignore_columns me)).
Proof.
  intros Hunset Hlist.
  pose proof (feature_engineer_detection_run collaborators table
                query_type file me w Hunset Hlist) as Hr.
  cbv zeta in Hr.
  destruct (collaborators (detect_request table me) w)
    as [[e|detected] w1].
  - destruct Hr as (_ & -> & _). reflexivity.
  - destruct Hr as (-> & _). reflexivity.
Qed.

(** C5, as the code has it: a [feature_engineer] call that runs automatic
    detection leaves every attribute other than [features_types] and
    [ignore_columns] unchanged; when [ignore_columns] is unset, empty or a
    list, the call overwrites it with the list of the customer-id and date
    columns, followed by what the list held before. *)
Theorem detection_keeps_other_attributes {W : Type}
    (collaborators : platform W)
    (table : string) (query_type file : option string)
    (me : self.t) (w : W) :
  truth (self.features_types me) = false ->
  let r := CrystalValue.feature_engineer collaborators table query_type
             file me w in
  other_attributes (self_after r) = other_attributes me /\
  (concatenable (self.ignore_columns me) = true ->
   self.ignore_columns (self_after r) =
   Some (py_list
           (match self.ignore_columns me with
            | Some (py_list supplied) =>
                self.customer_id_column me :: self.date_column me :: supplied
            | _ => [self.customer_id_column me; self.date_column me]
            end))).
Proof.
  intros Hunset. cbv zeta. split.
  - revert me w Hunset. intros me w _. revert me w.
    change (keeps other_attributes
              (CrystalValue.feature_engineer collaborators table query_type
                 file)).
    unfold CrystalValue.feature_engineer. cbv zeta. keep_steps.
  - intros Hlist.
    rewrite (ignore_columns_after_detection _ _ _ _ _ _ Hunset Hlist).
    unfold detection_ignore_columns.
    destruct (self.ignore_columns me) as [[| | |]|]; reflexivity.
Qed.

(** C9: an instance whose [ignore_columns] is the tuple
    [('webpage_id_column',)] and whose [features_types] is unset.  On every
    platform [feature_engineer] ends in [TypeError] at the concatenation of
    the list of key columns with the tuple: [ignore_columns] is not
    overwritten, the instance is exactly as it was, and nothing was called,
    so the detector is never told to ignore the key columns. *)
Theorem detection_rejects_tuple_ignore_columns {W : Type}
    (collaborators : platform W) (query_type file : option string) (w : W) :
  let me := sample_self_with_tuple in
  let r := CrystalValue.feature_engineer collaborators "transactions"
             query_type file me w in
  truth (self.features_types me) = false /\
  outcome r = inl (TypeError "tuple") /\
  self.ignore_columns (self_after r) =
    Some (py_tuple ["webpage_id_column"]) /\
  self_after r = me /\ world_after r = w /\ trace r = [].
Proof.
  cbv zeta.
  rewrite (feature_engineer_type_error collaborators "transactions"
             query_type file sample_self_with_tuple w eq_refl eq_refl).
  repeat split.
Qed.

(** ** The query executor *)

Section Executor.
Import feature_engineering.
Variable engine : string -> string -> Warehouse -> exn + DataFrame.
Variable read_text : string -> exn + string.
Variable base : platform Warehouse.

(** C1: [run_query] needs exactly one of [query_sql] and [query_file].
    With both or with neither the call fails with a precondition error
    and the warehouse is as it was, no job having been given to it.  With
    exactly one, the query (the text itself, or the text read from the
    file) is executed: it is the one job added, the outcome is what the
    warehouse makes of it, and the rows it returns are what the named
    destination table then holds. *)
Theorem run_query_exactly_one
    (me : self.t) (w : Warehouse) (destination_table_name : string) :
  let run sql file :=
    CrystalValue.run_query (with_run_query engine read_text base)
      destination_table_name sql file me w in
  let destination :=
    (project (self.bigquery_client me), self.dataset_id me,
     destination_table_name) in
  let job sql :=
    {| job_query := sql; job_destination := destination;
       job_location := self.location me |} in
  let refused (r : Run Warehouse DataFrame) :=
    (exists violated, outcome r = inl (PreconditionError violated)) /\
    world_after r = w /\ jobs (world_after r) = jobs w in
  let executed sql (r : Run Warehouse DataFrame) :=
    jobs (world_after r) = jobs w ++ [job sql] /\
    outcome r = engine sql (self.location me) w /\
    forall rows,
      outcome r = inr rows ->
      tables (world_after r) !! destination = Some rows in
  (forall sql path, refused (run (Some sql) (Some path))) /\
  refused (run None None) /\
  (forall sql, executed sql (run (Some sql) None)) /\
  (forall path sql,
      read_text path = inr sql -> executed sql (run None (Some path))).
Proof.
  cbv zeta. unfold CrystalValue.run_query.
  assert (Hexec : forall sql,
             let r := execute engine sql
                        (project (self.bigquery_client me),
                         self.dataset_id me, destination_table_name)
                        (self.location me) w in
             jobs (snd r) =
               jobs w ++ [{| job_query := sql;
                             job_destination :=
                               (project (self.bigquery_client me),
                                self.dataset_id me, destination_table_name);
                             job_location := self.location me |}] /\
             fst r = engine sql (self.location me) w /\
             forall rows,
               fst r = inr rows ->
               tables (snd r) !! (project (self.bigquery_client me),
                                  self.dataset_id me,
                                  destination_table_name) = Some rows).
  { intros sql. cbv zeta. unfold execute.
    destruct (engine sql (self.location me) w) as [e|rows]; cbn.
    - repeat split. discriminate.
    - repeat split. intros rows' [= <-]. apply lookup_insert_eq. }
  cbv beta. split; [|split; [|split]].
  - intros sql path. run_body. eauto.
  - run_body. eauto.
  - intros sql. run_body. unfold run_query.
    destruct (Hexec sql) as (Hj & Ho & Ht).
    destruct (execute engine sql _ _ w) as [answer w1]. cbn in *. auto.
  - intros path sql Hread. run_body. unfold run_query. rewrite Hread.
    destruct (Hexec sql) as (Hj & Ho & Ht).
    destruct (execute engine sql _ _ w) as [answer w1]. cbn in *. auto.
Qed.
End Executor.

(** ** The evaluation table *)

Section Ranking.
Import model_evaluation.

Lemma insert_desc_perm p l : Permutation (insert_desc p l) (p :: l).
Proof.
  induction l as [|q l IH]; cbn; [reflexivity|].
  destruct (Qle_bool (fst q) (fst p)); [reflexivity|].
  rewrite IH. apply perm_swap.
Qed.

Lemma sort_desc_perm l : Permutation (sort_desc l) l.
Proof.
  induction l as [|p l IH]; cbn; [reflexivity|].
  rewrite insert_desc_perm, IH. reflexivity.
Qed.

Lemma insert_desc_sorted p l :
  StronglySorted ranks_before l ->
  StronglySorted ranks_before (insert_desc p l).
Proof.
  induction l as [|q l IH]; cbn; intros Hl.
  - repeat constructor.
  - apply StronglySorted_inv in Hl. destruct Hl as [Hl Hq].
    destruct (Qle_bool (fst q) (fst p)) eqn:E.
    + apply Qle_bool_iff in E.
      constructor; [constructor; assumption|].
      constructor; [exact E|].
      eapply List.Forall_impl; [|exact Hq].
      intros x Hx. unfold ranks_before in *. eapply Qle_trans; eauto.
    + constructor; [auto|].
      eapply Permutation_Forall;
        [symmetry; apply insert_desc_perm|].
      constructor; [|exact Hq].
      unfold ranks_before. apply Qlt_le_weak, Qnot_le_lt.
      intros H. apply Qle_bool_iff in H. congruence.
Qed.

Lemma sort_desc_sorted l : StronglySorted ranks_before (sort_desc l).
Proof.
  induction l as [|p l IH]; cbn; [constructor|].
  apply insert_desc_sorted, IH.
Qed.

(** In a ranked list, an earlier position holds the larger prediction. *)
Lemma ranked_lookup (l : list (Q * Q)) i j x y :
  StronglySorted ranks_before l ->
  i < j -> l !! i = Some x -> l !! j = Some y -> ranks_before x y.
Proof.
  intros Hl. revert i j. induction Hl as [|a l Hl IH Ha]; intros i j Hij.
  - intros H. discriminate.
  - destruct j as [|j]; [lia|]. destruct i as [|i]; cbn.
    + intros [= <-] Hy. rewrite List.Forall_forall in Ha. apply Ha.
      apply list_elem_of_In. eapply list_elem_of_lookup_2. exact Hy.
    + apply IH. lia.
Qed.

(** *** Means *)

Lemma total_at_most (l : list Q) (c : Q) :
  Forall (fun y => y <= c)%Q l ->
  (total l <= c * inject_Z (Z.of_nat (length l)))%Q.
Proof.
  induction 1 as [|y l Hy Hl IH]; cbn [total fold_right length].
  - cbn. rewrite Qmult_0_r. apply Qle_refl.
  - rewrite Nat2Z.inj_succ. unfold Z.succ. rewrite inject_Z_plus.
    assert (E : (c * (inject_Z (Z.of_nat (length l)) + inject_Z 1)
                 == c + c * inject_Z (Z.of_nat (length l)))%Q) by ring.
    rewrite E.
    apply Qplus_le_compat; assumption.
Qed.

Lemma total_at_least (l : list Q) (c : Q) :
  Forall (fun x => c <= x)%Q l ->
  (c * inject_Z (Z.of_nat (length l)) <= total l)%Q.
Proof.
  induction 1 as [|x l Hx Hl IH]; cbn [total fold_right length].
  - cbn. rewrite Qmult_0_r. apply Qle_refl.
  - rewrite Nat2Z.inj_succ. unfold Z.succ. rewrite inject_Z_plus.
    assert (E : (c * (inject_Z (Z.of_nat (length l)) + inject_Z 1)
                 == c + c * inject_Z (Z.of_nat (length l)))%Q) by ring.
    rewrite E.
    apply Qplus_le_compat; assumption.
Qed.

Lemma length_positive {A : Type} (l : list A) :
  l <> [] -> (0 < inject_Z (Z.of_nat (length l)))%Q.
Proof.
  destruct l; [congruence|]. intros _.
  change 0%Q with (inject_Z 0). rewrite <- Zlt_Qlt. cbn [length]. lia.
Qed.

Lemma mean_at_most (l : list Q) (c : Q) :
  l <> [] -> Forall (fun y => y <= c)%Q l -> (mean l <= c)%Q.
Proof.
  intros Hne Hl. unfold mean.
  apply Qle_shift_div_r; [apply length_positive, Hne|].
  apply total_at_most, Hl.
Qed.

Lemma mean_at_least (l : list Q) (c : Q) :
  l <> [] -> Forall (fun x => c <= x)%Q l -> (c <= mean l)%Q.
Proof.
  intros Hne Hl. unfold mean.
  apply Qle_shift_div_l; [apply length_positive, Hne|].
  apply total_at_least, Hl.
Qed.

(** If every prediction in [high] is at least every prediction in [low],
    so are the means. *)
Lemma mean_predicted_ordered (high low : list (Q * Q)) :
  high <> [] -> low <> [] ->
  (forall x y, In x high -> In y low -> ranks_before x y) ->
  (mean (map fst low) <= mean (map fst high))%Q.
Proof.
  intros Hh Hl Hrank.
  apply mean_at_least; [destruct high; [congruence|discriminate]|].
  apply List.Forall_forall. intros c Hc.
  apply List.in_map_iff in Hc. destruct Hc as (x & <- & Hx).
  apply mean_at_most; [destruct low; [congruence|discriminate]|].
  apply List.Forall_forall. intros d Hd.
  apply List.in_map_iff in Hd. destruct Hd as (y & <- & Hy).
  apply (Hrank x y Hx Hy).
Qed.
End Ranking.

Section Buckets.
Import model_evaluation.
Context {A : Type}.
Implicit Types (l : list A) (b i j k : nat).

Lemma bucket_bounds_mono b n i j :
  (i < j)%nat -> (S i * n / b <= j * n / b)%nat.
Proof.
  intros Hij. destruct b as [|b]; [reflexivity|].
  apply Nat.Div0.div_le_mono. nia.
Qed.

Lemma bucket_upper_bound b n i :
  (i < b)%nat -> (S i * n / b <= n)%nat.
Proof.
  intros Hi. destruct b as [|b]; [lia|].
  rewrite <- (Nat.div_mul n (S b)) at 2 by lia.
  apply Nat.Div0.div_le_mono. nia.
Qed.

Lemma bucket_lookup b l i k x :
  bucket b l i !! k = Some x ->
  l !! (i * length l / b + k)%nat = Some x /\
  (i * length l / b + k < S i * length l / b)%nat.
Proof.
  unfold bucket. cbv zeta. rewrite lookup_take_Some, lookup_drop.
  intros [Hx Hk]. split; [exact Hx | lia].
Qed.

Lemma length_bucket b l i :
  (i < b)%nat ->
  length (bucket b l i) =
  (S i * length l / b - i * length l / b)%nat.
Proof.
  intros Hi. unfold bucket. cbv zeta. rewrite length_take, length_drop.
  pose proof (bucket_upper_bound b (length l) i Hi). lia.
Qed.

Lemma bucket_not_empty b l i :
  (b <= length l)%nat -> (i < b)%nat -> bucket b l i <> [].
Proof.
  intros Hb Hi Hnil.
  pose proof (length_bucket b l i Hi) as Hlen. rewrite Hnil in Hlen.
  cbn [length] in Hlen.
  assert (i * length l / b + 1 <= S i * length l / b)%nat; [|lia].
  rewrite <- (Nat.div_add (i * length l) 1 b) by lia.
  apply Nat.Div0.div_le_mono. nia.
Qed.

Lemma concat_buckets_upto b l k :
  concat (map (bucket b l) (seq 0 k)) = take (k * length l / b) l.
Proof.
  induction k as [|k IH].
  - cbn [seq map concat]. rewrite Nat.mul_0_l.
    destruct b; reflexivity.
  - rewrite seq_S, map_app, concat_app, IH. cbn [map concat plus].
    rewrite app_nil_r. unfold bucket. cbv zeta.
    rewrite take_take_drop. f_equal.
    assert (k * length l / b <= S k * length l / b)%nat; [|lia].
    destruct b as [|b]; [reflexivity|].
    apply Nat.Div0.div_le_mono. lia.
Qed.

Lemma concat_buckets b l : (0 < b)%nat -> concat (buckets b l) = l.
Proof.
  intros Hb. unfold buckets. rewrite concat_buckets_upto.
  rewrite Nat.mul_comm, Nat.div_mul by lia. apply firstn_all.
Qed.
End Buckets.

Lemma sorted_map_seq {B : Type} (R : B -> B -> Prop) (f : nat -> B)
    (start len : nat) :
  (forall i j, (start <= i)%nat -> (i < j)%nat -> (j < start + len)%nat ->
               R (f i) (f j)) ->
  StronglySorted R (map f (seq start len)).
Proof.
  revert start. induction len as [|len IH]; intros start Hf; cbn.
  - constructor.
  - constructor.
    + apply IH. intros i j Hi Hij Hj. apply Hf; lia.
    + apply List.Forall_forall. intros y Hy.
      apply List.in_map_iff in Hy. destruct Hy as (j & <- & Hj).
      apply List.in_seq in Hj. apply Hf; lia.
Qed.

Section Evaluation.
Import model_evaluation.

(** Pairs of an earlier bucket rank before pairs of a later one. *)
Lemma bucket_ranked (l : list (Q * Q)) b i j x y :
  StronglySorted ranks_before l -> (i < j)%nat ->
  In x (bucket b l i) -> In y (bucket b l j) -> ranks_before x y.
Proof.
  intros Hl Hij Hx Hy.
  apply list_elem_of_In, list_elem_of_lookup_1 in Hx, Hy.
  destruct Hx as [kx Hx], Hy as [ky Hy].
  apply bucket_lookup in Hx, Hy.
  destruct Hx as [Hx Hkx], Hy as [Hy Hky].
  pose proof (bucket_bounds_mono b (length l) i j Hij).
  eapply (ranked_lookup l); [exact Hl| |exact Hx|exact Hy]. lia.
Qed.

Lemma length_sort_desc l : length (sort_desc l) = length l.
Proof. apply Permutation_length, sort_desc_perm. Qed.

(** With at least as many matched pairs as buckets, the rows come in
    descending order of mean predicted value. *)
Lemma evaluation_table_descending b pairs :
  (b <= length (matched pairs))%nat ->
  StronglySorted descending_means (evaluation_table b pairs).
Proof.
  intros Hb. unfold evaluation_table. cbv zeta.
  apply sorted_map_seq. intros i j _ Hij Hj.
  unfold descending_means. cbn [mean_predicted summarise].
  apply mean_predicted_ordered.
  - apply bucket_not_empty; [rewrite length_sort_desc; exact Hb | lia].
  - apply bucket_not_empty; [rewrite length_sort_desc; exact Hb | lia].
  - intros x y. apply bucket_ranked; [apply sort_desc_sorted | exact Hij].
Qed.

Lemma matched_present pairs :
  Forall present pairs ->
  map (fun g => (fst g, Some (snd g))) (matched pairs) = pairs.
Proof.
  induction 1 as [|[predicted [actual|]] pairs Hp Hps IH]; cbn.
  - reflexivity.
  - f_equal. exact IH.
  - contradiction Hp. reflexivity.
Qed.

Lemma length_matched_present pairs :
  Forall present pairs -> length (matched pairs) = length pairs.
Proof.
  intros H. rewrite <- (matched_present pairs H) at 2.
  rewrite length_map. reflexivity.
Qed.
End Evaluation.

(** C6: for 100 matched pairs and ten bins the evaluation table has ten
    rows, numbered 0 to 9.  The 100 pairs, ranked by descending predicted
    value, fall into ten groups of exactly ten pairs, one per row: the
    row's mean predicted value is the sum of the group's predictions over
    10, its mean actual value the sum of the group's actual values over
    10, and its normalised error the mean absolute difference over the
    mean actual value.  The rows come in descending order of mean predicted
    value; and [evaluate_model] called without [number_bins] asks for ten
    bins, so that it returns this table. *)
Theorem decile_evaluation (pairs : list model_evaluation.Pair) :
  length pairs = 100%nat -> Forall present pairs ->
  let rows := model_evaluation.evaluation_table 10 pairs in
  length rows = 10%nat /\
  map bin rows = seq 0 10 /\
  (exists groups : list (list (Q * Q)),
      Permutation (map (fun g => (fst g, Some (snd g))) (concat groups))
                  pairs /\
      StronglySorted ranks_before (concat groups) /\
      Forall2 (fun row group =>
                 length group = 10%nat /\
                 mean_predicted row =
                   (fold_right Qplus 0 (map fst group) / 10)%Q /\
                 mean_actual row =
                   (fold_right Qplus 0 (map snd group) / 10)%Q /\
                 normalised_mae row =
                   ((fold_right Qplus 0
                       (map (fun g => Qabs (fst g - snd g)) group) / 10)
                    / (fold_right Qplus 0 (map snd group) / 10))%Q)
              rows groups) /\
  StronglySorted descending_means rows /\
  (forall (W : Type) holdout_predictions (base : platform W)
          endpoint_id table_evaluation_stats me w,
      (forall client dataset endpoint model location,
          holdout_predictions client dataset endpoint model location w =
          inr pairs) ->
      outcome (CrystalValue.evaluate_model
                 (with_evaluator holdout_predictions base)
                 endpoint_id table_evaluation_stats None me w) = inr rows).
Proof.
  intros Hlen Hpresent. cbv zeta.
  pose proof (length_matched_present pairs Hpresent) as Hmatched.
  rewrite Hlen in Hmatched.
  split; [|split; [|split; [|split]]].
  - unfold model_evaluation.evaluation_table. cbv zeta.
    rewrite length_map, length_seq. reflexivity.
  - unfold model_evaluation.evaluation_table. cbv zeta.
    rewrite List.map_map. cbn [bin model_evaluation.summarise].
    apply List.map_id.
  - exists (model_evaluation.buckets 10
              (model_evaluation.sort_desc (model_evaluation.matched pairs))).
    split; [|split].
    + rewrite concat_buckets by lia.
      rewrite sort_desc_perm. rewrite matched_present by exact Hpresent.
      reflexivity.
    + rewrite concat_buckets by lia. apply sort_desc_sorted.
    + unfold model_evaluation.evaluation_table, model_evaluation.buckets.
      cbv zeta. apply Forall2_fmap, Forall_Forall2_diag.
      apply List.Forall_forall. intros i Hi. apply List.in_seq in Hi.
      assert (Hten : length (model_evaluation.bucket 10
                               (model_evaluation.sort_desc
                                  (model_evaluation.matched pairs)) i)
                     = 10%nat).
      { rewrite length_bucket by lia.
        rewrite length_sort_desc, Hmatched.
        replace (S i * 100)%nat with ((S i * 10) * 10)%nat by lia.
        replace (i * 100)%nat with ((i * 10) * 10)%nat by lia.
        rewrite !Nat.div_mul by lia. lia. }
      cbn [mean_predicted mean_actual normalised_mae
             model_evaluation.summarise].
      unfold model_evaluation.mean, model_evaluation.total.
      rewrite !length_map, Hten. repeat split.
  - apply evaluation_table_descending. lia.
  - intros W holdout_predictions base endpoint_id table_evaluation_stats
           me w Hholdout.
    unfold CrystalValue.evaluate_model. run_body.
    unfold model_evaluation.evaluate_model_predictions.
    rewrite Hholdout. reflexivity.
Qed.

(** * Concrete runs

    Each theorem above that has premises, applied to a run of the sample
    platform. *)

Lemma run_query_exactly_one_witness :
  sample_files "train_query.sql" = inr "SELECT customer_id FROM transactions" /\
  let r :=
    CrystalValue.run_query
      (with_run_query sample_engine sample_files unavailable_platform)
      "training_data" None (Some "train_query.sql") sample_self
      empty_warehouse in
  outcome r = inr [["SELECT customer_id FROM transactions"]] /\
  feature_engineering.tables (world_after r)
    !! ("my-project", "an_existing_dataset", "training_data") =
  Some [["SELECT customer_id FROM transactions"]].
Proof.
  split; [reflexivity|]. cbv zeta.
  destruct (run_query_exactly_one sample_engine sample_files
              unavailable_platform sample_self empty_warehouse
              "training_data") as (_ & _ & _ & Hfile).
  destruct (Hfile "train_query.sql" "SELECT customer_id FROM transactions"
              eq_refl) as (_ & Ho & Ht).
  split; [exact Ho|]. apply Ht. exact Ho.
Defined.

Lemma no_features_detected_witness :
  (let r := CrystalValue.feature_engineer
              (sample_platform (inr []) []) "transactions" None None
              sample_self 0%nat in
   outcome r = inl (ValueError "No features detected") /\
   trace r = [Called (detect_request "transactions" sample_self) (inr [])] /\
   world_after r = 1%nat) /\
  (let r := CrystalValue.feature_engineer
              (sample_platform (inr [("numeric", ["transaction_value"])]) [])
              "transactions" None None sample_self 0%nat in
   forall e, outcome r = inl e ->
             e = UnboundLocalError "table_name" \/
             exists ev, In ev (trace r) /\ raised ev = Some e).
Proof.
  split.
  - apply (proj1 (no_features_detected (sample_platform (inr []) [])
                    "transactions" None None sample_self 0%nat [] 1%nat
                    eq_refl eq_refl eq_refl)).
    reflexivity.
  - apply (proj2 (no_features_detected
                    (sample_platform
                       (inr [("numeric", ["transaction_value"])]) [])
                    "transactions" None None sample_self 0%nat
                    [("numeric", ["transaction_value"])] 1%nat
                    eq_refl eq_refl eq_refl)).
    discriminate.
Defined.

Lemma batch_predict_model_fallback_witness :
  (exists answer rest,
      trace (CrystalValue.batch_predict (sample_platform (inr []) [])
               "predict_features_data" None None None
               (self.with_model_id (Some "553728129496821") sample_self)
               0%nat) =
      Called (automl_create_batch_predictions "my-project"
                "an_existing_dataset" (Some "553728129496821")
                "predict_features_data" "europe-west4") answer :: rest) /\
  (exists answer rest,
      trace (CrystalValue.batch_predict (sample_platform (inr []) [])
               "predict_features_data" (Some "777") None None
               (self.with_model_id (Some "553728129496821") sample_self)
               0%nat) =
      Called (automl_create_batch_predictions "my-project"
                "an_existing_dataset" (Some "777")
                "predict_features_data" "europe-west4") answer :: rest).
Proof.
  split.
  - apply (proj1 (batch_predict_model_fallback (sample_platform (inr []) [])
                    "predict_features_data" None None None
                    (self.with_model_id (Some "553728129496821") sample_self)
                    0%nat)).
    reflexivity.
  - apply (proj2 (batch_predict_model_fallback (sample_platform (inr []) [])
                    "predict_features_data" (Some "777") None None
                    (self.with_model_id (Some "553728129496821") sample_self)
                    0%nat)).
    reflexivity.
Defined.

Lemma deploy_and_evaluate_fallback_witness :
  (exists answer rest,
      trace (CrystalValue.deploy_model
               (sample_platform (inr []) [sample_endpoint]) (Some "")
               (self.with_model_id (Some "553728129496821") sample_self)
               0%nat) =
      Called (automl_deploy_model {| project := "my-project" |}
                (Some "553728129496821") "europe-west4") answer :: rest) /\
  (exists answer,
      trace (CrystalValue.evaluate_model
               (sample_platform (inr []) [sample_endpoint])
               (Some "4242") None None sample_self 0%nat) =
      [Called (model_evaluation_evaluate_model_predictions
                 {| project := "my-project" |} "an_existing_dataset"
                 (Some "4242") None "crystalvalue_evaluation" "europe-west4"
                 10%Z) answer]).
Proof.
  pose proof (deploy_and_evaluate_fallback
                (sample_platform (inr []) [sample_endpoint])
                (Some "") (Some "4242") None None
                (self.with_model_id (Some "553728129496821") sample_self)
                0%nat) as Hdeploy.
  pose proof (deploy_and_evaluate_fallback
                (sample_platform (inr []) [sample_endpoint])
                None (Some "4242") None None sample_self 0%nat) as Hevaluate.
  cbv zeta in Hdeploy, Hevaluate.
  destruct Hdeploy as (Hdeploy & _).
  destruct Hevaluate as (_ & _ & _ & Hevaluate).
  split.
  - apply Hdeploy. reflexivity.
  - apply Hevaluate. reflexivity.
Defined.

Lemma identifiers_persisted_witness :
  self.model_id
    (self_after (CrystalValue.train (sample_platform (inr []) [])
                   None None None None None None sample_self 0%nat)) =
  Some "553728129496821" /\
  exists piece,
    self.endpoint_id
      (self_after (CrystalValue.deploy_model
                     (sample_platform (inr []) [sample_endpoint]) None
                     sample_self 0%nat)) = Some piece /\
    str.contains piece "/" = false.
Proof.
  destruct (identifiers_persisted (sample_platform (inr []) [sample_endpoint]))
    as (_ & Hdeploy & _).
  destruct (identifiers_persisted (sample_platform (inr []) []))
    as (Htrain & _).
  split.
  - apply (Htrain None None None None None None sample_self 0%nat
             (sample_model [])).
    reflexivity.
  - destruct (Hdeploy None sample_self 0%nat (sample_model [sample_endpoint])
                eq_refl)
      as (_ & first & rest & piece & _ & _ & Hid & Hno & _).
    exists piece. split; assumption.
Defined.

Lemma collaborator_errors_propagate_witness :
  let r := CrystalValue.deploy_model
             (failing_platform (ServiceError "quota exceeded")) None
             sample_self 0%nat in
  outcome r = inl (ServiceError "quota exceeded") /\
  last (trace r) =
    Some (Called (automl_deploy_model {| project := "my-project" |} None
                    "europe-west4")
            (inl (ServiceError "quota exceeded"))).
Proof.
  destruct (collaborator_errors_propagate
              (failing_platform (ServiceError "quota exceeded")))
    as (_ & _ & _ & _ & _ & _ & Hdeploy & _).
  apply (Hdeploy None sample_self 0%nat).
  - left. reflexivity.
  - reflexivity.
Defined.

(** C5 as stated fails: on an instance with no [ignore_columns], a
    [feature_engineer] call that runs detection leaves the attribute
    holding the customer-id and date columns. *)
Lemma detection_overwrites_ignore_columns :
  let r := CrystalValue.feature_engineer
             (sample_platform (inr [("numeric", ["transaction_value"])]) [])
             "transactions" None None sample_self 0%nat in
  truth (self.features_types sample_self) = false /\
  outcome r = inr [["c1"; "10"]] /\
  self.ignore_columns sample_self = None /\
  self.ignore_columns (self_after r) =
    Some (py_list ["customer_id"; "date"]) /\
  self.ignore_columns (self_after r) <> self.ignore_columns sample_self.
Proof.
  cbv zeta. split; [reflexivity|]. split; [reflexivity|].
  split; [reflexivity|]. split; [reflexivity|]. discriminate.
Qed.

Lemma detection_keeps_other_attributes_witness :
  let me :=
    self.with_ignore_columns (Some (py_list ["webpage_id_column"]))
      sample_self in
  let r := CrystalValue.feature_engineer
             (sample_platform (inr [("numeric", ["transaction_value"])]) [])
             "transactions" None None me 0%nat in
  other_attributes (self_after r) = other_attributes me /\
  self.ignore_columns (self_after r) =
    Some (py_list ["customer_id"; "date"; "webpage_id_column"]).
Proof.
  cbv zeta.
  destruct (detection_keeps_other_attributes
              (sample_platform (inr [("numeric", ["transaction_value"])]) [])
              "transactions" None None
              (self.with_ignore_columns (Some (py_list ["webpage_id_column"]))
                 sample_self)
              0%nat eq_refl) as (Hother & Hignore).
  split; [exact Hother | exact (Hignore eq_refl)].
Defined.

Lemma table_dispatch_witness :
  (let r := CrystalValue.feature_engineer (sample_platform (inr []) [])
              "transactions" (Some "validation_query") None
              sample_self_with_features 0%nat in
   outcome r = inl (UnboundLocalError "table_name")) /\
  (let r := CrystalValue.feature_engineer (sample_platform (inr []) [])
              "transactions" None None sample_self_with_features 0%nat in
   exists answer,
     last (trace r) =
       Some (Called (run_query_request "training_data"
                       "SELECT customer_id FROM transactions"
                       sample_self_with_features) answer) /\
     outcome r = answer).
Proof.
  split.
  - cbv zeta.
    apply (table_dispatch (sample_platform (inr []) [])
             "transactions" (Some "validation_query") None
             sample_self_with_features 0%nat
             (Called (build_request "transactions" (Some "validation_query")
                        None sample_self_with_features)
                (inr "SELECT customer_id FROM transactions"))
             "SELECT customer_id FROM transactions").
    + left. reflexivity.
    + reflexivity.
    + discriminate.
    + discriminate.
  - cbv zeta.
    apply (table_dispatch (sample_platform (inr []) [])
             "transactions" None None sample_self_with_features 0%nat
             (Called (build_request "transactions" None None
                        sample_self_with_features)
                (inr "SELECT customer_id FROM transactions"))
             "SELECT customer_id FROM transactions").
    + left. reflexivity.
    + reflexivity.
    + reflexivity.
Defined.

Lemma sample_pairs_present : Forall present sample_pairs.
Proof.
  apply List.Forall_forall. intros p Hp. unfold sample_pairs in Hp.
  apply List.in_map_iff in Hp. destruct Hp as (i & <- & _).
  unfold present. discriminate.
Defined.

Lemma decile_evaluation_witness :
  length sample_pairs = 100%nat /\
  let rows := model_evaluation.evaluation_table 10 sample_pairs in
  length rows = 10%nat /\ map bin rows = seq 0 10 /\
  StronglySorted descending_means rows /\
  map (fun row => (Qred (mean_predicted row), Qred (mean_actual row),
                   Qred (normalised_mae row)))
      rows =
  [(189 # 2, 189, 1 # 2); (169 # 2, 169, 1 # 2); (149 # 2, 149, 1 # 2);
   (129 # 2, 129, 1 # 2); (109 # 2, 109, 1 # 2); (89 # 2, 89, 1 # 2);
   (69 # 2, 69, 1 # 2); (49 # 2, 49, 1 # 2); (29 # 2, 29, 1 # 2);
   (9 # 2, 9, 1 # 2)]%Q.
Proof.
  split; [reflexivity|]. cbv zeta.
  destruct (decile_evaluation sample_pairs eq_refl sample_pairs_present)
    as (Hrows & Hbins & _ & Hsorted & _).
  repeat (split; [assumption|]).
  vm_compute. reflexivity.
Defined.

(** * Further properties of the methods *)

(** ** What the methods leave alone *)

Section Frames.
Context {W : Type}.
Variable collaborators : platform W.

(** X1: the methods that only delegate leave the whole instance as it was,
    in every run, whether the collaborator answers or raises. *)
Theorem delegating_methods_keep_instance :
  (forall table_name row_count start_date end_date,
      keeps id (CrystalValue.create_synthetic_data collaborators table_name
                  row_count start_date end_date)) /\
  (forall table places summary,
      keeps id (CrystalValue.run_data_checks collaborators table places
                  summary)) /\
  (forall dest sql file,
      keeps id (CrystalValue.run_query collaborators dest sql file)) /\
  (forall input model_id model_name dest,
      keeps id (CrystalValue.batch_predict collaborators input model_id
                  model_name dest)) /\
  (forall endpoint_id table bins,
      keeps id (CrystalValue.evaluate_model collaborators endpoint_id table
                  bins)).
Proof.
  repeat apply conj.
  - intros table_name row_count start_date end_date.
    unfold CrystalValue.create_synthetic_data. cbv zeta. keep_steps.
  - intros table places summary.
    unfold CrystalValue.run_data_checks. cbv zeta. keep_steps.
  - intros dest sql file. unfold CrystalValue.run_query. keep_steps.
  - intros input model_id model_name dest.
    unfold CrystalValue.batch_predict. cbv zeta. keep_steps.
  - intros endpoint_id table bins.
    unfold CrystalValue.evaluate_model. cbv zeta. keep_steps.
Qed.

Lemma requests_app (tr1 tr2 : list event) :
  requests (tr1 ++ tr2) = requests tr1 ++ requests tr2.
Proof. unfold requests. apply omap_app. Qed.

Lemma requests_logs (logs : list event) :
  Forall is_log logs -> requests logs = [].
Proof.
  induction 1 as [|ev logs Hev Hlogs IH]; [reflexivity|].
  destruct ev; [destruct Hev|]. exact IH.
Qed.

(** The calls of the statements after the detection block. *)
Lemma build_and_run_requests table query_type file me w :
  let t := build_and_run collaborators table query_type file me w in
  self_after t = me /\
  length (trace t) = length (requests (trace t)) /\
  (requests (trace t) = [build_request table query_type file me] \/
   exists table_name sql,
     requests (trace t) =
       [build_request table query_type file me;
        run_query_request table_name sql me]).
Proof.
  cbv zeta.
  destruct (build_and_run_run collaborators table query_type file me w)
    as (Hs & Ht).
  cbv zeta in Ht. split; [exact Hs|].
  destruct (collaborators (build_request table query_type file me) w)
    as [[e|sql] w1].
  - destruct Ht as (_ & _ & ->). cbn. auto.
  - destruct (if String.eqb _ _ then _ else _) as [table_name|].
    + destruct (collaborators _ w1) as [answer w2].
      destruct Ht as (_ & _ & ->). cbn. eauto.
    + destruct Ht as (_ & _ & ->). cbn. auto.
Qed.

(** X2: with a feature-type mapping supplied, [feature_engineer] detects
    nothing: the instance ([ignore_columns] included) is untouched, nothing
    is logged, and the only calls are [build_query] with the supplied
    mapping and, at most, [run_query]. *)
Theorem supplied_features_skip_detection
    (table : string) (query_type file : option string)
    (me : self.t) (w : W) :
  truth (self.features_types me) = true ->
  let r := CrystalValue.feature_engineer collaborators table query_type
             file me w in
  self_after r = me /\
  length (trace r) = length (requests (trace r)) /\
  (requests (trace r) = [build_request table query_type file me] \/
   exists table_name sql,
     requests (trace r) =
       [build_request table query_type file me;
        run_query_request table_name sql me]).
Proof.
  intros Hset. cbv zeta.
  rewrite (feature_engineer_skips collaborators _ _ _ _ _ Hset).
  apply build_and_run_requests.
Qed.
End Frames.

(** ** Training, deployment and prediction *)

(** Running a method body one statement at a time, with the equations of
    [bind]; the projections of the run are simplified after each step, so
    the goal stays small. *)
Ltac settle :=
  cbv beta zeta;
  cbn [outcome self_after world_after trace lift index_first
         truth truth_optional negb].

Ltac step :=
  rewrite ?bind_assoc;
  first [ rewrite bind_get_self | rewrite bind_assign
        | rewrite bind_ret | rewrite bind_raise ];
  settle.

Ltac step_call :=
  rewrite ?bind_assoc;
  rewrite bind_invoke;
  match goal with
  | |- context [?p ?c ?w] =>
      match type of p with
      | platform _ =>
          let a := fresh "answer" in
          let w' := fresh "w" in
          destruct (p c w) as [[a|a] w']
      end
  end;
  settle.

Ltac last_call :=
  unfold invoke;
  match goal with
  | |- context [?p ?c ?w] =>
      match type of p with
      | platform _ =>
          let a := fresh "answer" in
          let w' := fresh "w" in
          destruct (p c w) as [[a|a] w']
      end
  end;
  settle.

Lemma contains_after_prefix sep prefix rest :
  str.contains (prefix ++ String sep rest)%string sep = true.
Proof.
  induction prefix as [|c prefix IH]; simpl.
  - rewrite Ascii.eqb_refl. reflexivity.
  - rewrite IH. apply orb_true_r.
Qed.

Lemma index_last_split_skip sep c s :
  str.contains s sep = true ->
  index_last (str.split sep (String c s)) = index_last (str.split sep s).
Proof.
  intros Hsep. cbn [str.split].
  destruct (Ascii.eqb c sep).
  - apply index_last_cons, split_not_nil.
  - destruct (str.split sep s) as [|piece pieces] eqn:Es;
      [exfalso; eapply split_not_nil; eauto|].
    destruct pieces as [|piece' pieces]; [|reflexivity].
    destruct (split_single _ _ _ Es) as [-> Hno]. congruence.
Qed.

(** The piece after the last separator is the last piece of the split. *)
Lemma split_last_of_path sep prefix piece :
  str.contains piece sep = false ->
  index_last (str.split sep (prefix ++ String sep piece)%string) = inr piece.
Proof.
  intros Hno. induction prefix as [|c prefix IH].
  - simpl. rewrite Ascii.eqb_refl.
    rewrite index_last_cons by apply split_not_nil.
    rewrite (split_no_separator _ _ Hno). reflexivity.
  - change (String c prefix ++ String sep piece)%string
      with (String c (prefix ++ String sep piece))%string.
    rewrite index_last_split_skip by apply contains_after_prefix.
    exact IH.
Qed.

Section Lifecycle.
Context {W : Type}.
Variable collaborators : platform W.

(** X3: [train] changes the instance only when it succeeds.  A run that
    ends in an exception leaves the whole instance as it was, and the
    exception is the one the last collaborator call raised; if creating the
    dataset fails, training is never requested. *)
Theorem failed_train_changes_nothing
    (dataset_name model_name split_column target objective : option string)
    (budget : option Z) (me : self.t) (w : W) :
  let r := CrystalValue.train collaborators dataset_name model_name
             split_column target objective budget me w in
  (forall e, outcome r = inl e ->
             self_after r = me /\
             exists ev, last (trace r) = Some ev /\ raised ev = Some e) /\
  (forall e w1,
      collaborators (dataset_request dataset_name me) w = (inl e, w1) ->
      outcome r = inl e /\ world_after r = w1 /\
      trace r = [Called (dataset_request dataset_name me) (inl e)]).
Proof.
  cbv zeta. unfold CrystalValue.train, dataset_request. cbv zeta. split.
  - intros e. step. step_call; [intros [= <-]; eauto|].
    step_call; [intros [= <-]; eauto|].
    step. unfold ret. settle. discriminate.
  - intros e w1 Hfail. step. rewrite bind_invoke, Hfail. auto.
Qed.

(** X4: [deploy_model] reads the first deployed model of the model the
    deployment returns.  It succeeds exactly when that list is not empty;
    when it is empty the method raises [IndexError] although the
    deployment call was made, and the endpoint is not recorded.  Whatever
    the exception, the instance is as it was. *)
Theorem deploy_model_needs_a_deployed_model
    (model_id : option string) (me : self.t) (w : W)
    (model : Model) (w1 : W) :
  let r := CrystalValue.deploy_model collaborators model_id me w in
  let used := if negb (truth model_id) then self.model_id me else model_id in
  (forall e, outcome r = inl e -> self_after r = me) /\
  (collaborators (deploy_request used me) w = (inr model, w1) ->
   (deployed_models (gca_resource model) = [] ->
    outcome r = inl (IndexError "list index out of range") /\
    self_after r = me /\ world_after r = w1 /\
    trace r = [Called (deploy_request used me) (inr model)]) /\
   (deployed_models (gca_resource model) <> [] ->
    outcome r = inr model /\ is_Some (self.endpoint_id (self_after r)))).
Proof.
  cbv zeta. unfold CrystalValue.deploy_model, deploy_request. cbv zeta.
  split.
  - intros e. step. step_call; [intros _; reflexivity|].
    destruct (deployed_models (gca_resource answer)) as [|first rest];
      settle; [rewrite bind_raise; intros _; reflexivity|].
    step.
    destruct (index_last_some (str.split "/" (endpoint first))
                (split_not_nil _ _)) as [piece ->].
    settle. step. step. unfold ret. settle. discriminate.
  - intros Hdeploy. step. rewrite bind_invoke, Hdeploy. settle. split.
    + intros ->. settle. rewrite bind_raise. auto.
    + intros Hsome.
      destruct (deployed_models (gca_resource model)) as [|first rest];
        [congruence|]. settle. step.
      destruct (index_last_some (str.split "/" (endpoint first))
                  (split_not_nil _ _)) as [piece ->].
      settle. step. step. unfold ret. settle. cbn. eauto.
Qed.

(** X5: the identifier [deploy_model] stores is what follows the last
    slash of the endpoint's resource name: for an endpoint [prefix/id]
    where [id] has no slash, [endpoint_id] becomes [id]; an endpoint
    without any slash is stored whole. *)
Theorem deploy_model_stores_endpoint_suffix
    (model_id : option string) (me : self.t) (w : W)
    (model : Model) (w1 : W) (first : DeployedModelRef)
    (rest : list DeployedModelRef) (id : string) :
  let r := CrystalValue.deploy_model collaborators model_id me w in
  let used := if negb (truth model_id) then self.model_id me else model_id in
  collaborators (deploy_request used me) w = (inr model, w1) ->
  deployed_models (gca_resource model) = first :: rest ->
  str.contains id "/" = false ->
  (endpoint first = id \/
   exists prefix, endpoint first = (prefix ++ String "/" id)%string) ->
  self.endpoint_id (self_after r) = Some id.
Proof.
  cbv zeta. unfold CrystalValue.deploy_model, deploy_request.
  cbv zeta. intros Hdeploy Hfirst Hno Hpath.
  assert (Hlast : index_last (str.split "/" (endpoint first)) = inr id).
  { destruct Hpath as [->|[prefix ->]].
    - rewrite (split_no_separator _ _ Hno). reflexivity.
    - apply split_last_of_path, Hno. }
  step. rewrite bind_invoke, Hdeploy. settle. rewrite Hfirst. settle.
  step. rewrite Hlast. settle. step. step. reflexivity.
Qed.

(** X7: [batch_predict] loads into the destination table the very job that
    [create_batch_predictions] returned, and its outcome is that of the
    load; if the prediction job cannot be created, nothing is loaded. *)
Theorem batch_predict_loads_created_job
    (input_table_name : string) (model_id : option string)
    (model_name destination_table : option string)
    (me : self.t) (w : W) :
  let r := CrystalValue.batch_predict collaborators input_table_name
             model_id model_name destination_table me w in
  let used := if negb (truth model_id) then self.model_id me else model_id in
  let create := batch_request input_table_name used me in
  (forall e w1,
      collaborators create w = (inl e, w1) ->
      outcome r = inl e /\ world_after r = w1 /\
      trace r = [Called create (inl e)]) /\
  (forall job w1 answer w2,
      collaborators create w = (inr job, w1) ->
      collaborators (load_request job destination_table model_name me) w1 =
        (answer, w2) ->
      outcome r = answer /\ world_after r = w2 /\
      trace r =
        [Called create (inr job);
         Called (load_request job destination_table model_name me) answer]).
Proof.
  cbv zeta. unfold CrystalValue.batch_predict, batch_request, load_request.
  split.
  - intros e w1 Hcreate. cbv zeta. step. rewrite bind_invoke, Hcreate.
    auto.
  - intros job w1 answer w2 Hcreate Hload. cbv zeta. step.
    rewrite bind_invoke, Hcreate. settle. unfold invoke. rewrite Hload.
    auto.
Qed.
End Lifecycle.

Section Workflow.
Context {W : Type}.
Variable collaborators : platform W.

(** A successful [train], by the answers of its two calls. *)
Lemma train_success
    (dataset_name model_name split_column target objective : option string)
    (budget : option Z) (me : self.t) (w : W) (model : Model) :
  let r := CrystalValue.train collaborators dataset_name model_name
             split_column target objective budget me w in
  outcome r = inr model ->
  exists dataset,
    self_after r = self.with_model_id (Some (name model)) me /\
    trace r =
      [Called (dataset_request dataset_name me) (inr dataset);
       Called (training_request dataset model_name split_column target
                 objective budget me) (inr model)].
Proof.
  cbv zeta. unfold CrystalValue.train, dataset_request, training_request.
  cbv zeta.
  step. step_call; [discriminate|]. step_call; [discriminate|].
  step. unfold ret. settle. intros [= <-]. eauto.
Qed.

(** A successful [deploy_model], by the answer of its call. *)
Lemma deploy_model_success (model_id : option string) (me : self.t) (w : W)
    (model : Model) :
  let r := CrystalValue.deploy_model collaborators model_id me w in
  let used := if negb (truth model_id) then self.model_id me else model_id in
  outcome r = inr model ->
  exists first rest piece,
    deployed_models (gca_resource model) = first :: rest /\
    index_last (str.split "/" (endpoint first)) = inr piece /\
    self_after r = self.with_endpoint_id (Some piece) me /\
    trace r = [Called (deploy_request used me) (inr model)].
Proof.
  cbv zeta. unfold CrystalValue.deploy_model, deploy_request. cbv zeta.
  step. step_call; [discriminate|].
  destruct (deployed_models (gca_resource answer)) as [|first rest] eqn:Ed;
    settle; [step; discriminate|].
  step.
  destruct (index_last (str.split "/" (endpoint first))) as [e|piece] eqn:El;
    settle; [step; discriminate|].
  step. step. unfold ret. settle. intros [= <-].
  exists first, rest, piece. auto.
Qed.

(** [evaluate_model] is its one call. *)
Lemma evaluate_model_run
    (endpoint_id table_evaluation_stats : option string)
    (number_bins : option Z) (me : self.t) (w : W) :
  let r := CrystalValue.evaluate_model collaborators endpoint_id
             table_evaluation_stats number_bins me w in
  let used :=
    if negb (truth endpoint_id) then self.endpoint_id me else endpoint_id in
  self_after r = me /\
  trace r =
    [Called (evaluation_request used table_evaluation_stats number_bins me)
       (outcome r)].
Proof.
  cbv zeta. unfold CrystalValue.evaluate_model, evaluation_request.
  cbv zeta. step. unfold invoke.
  destruct (collaborators _ w) as [answer w1]. auto.
Qed.

(** X6: train, deploy, evaluate, each without naming a model or an
    endpoint.  When the three succeed, deployment was asked for the model
    that training returned, evaluation for the endpoint that deployment
    returned and for that same model, and both identifiers are stored. *)
Theorem workflow_passes_identifiers_on
    (me : self.t) (w : W) (rows : list EvaluationRecord) :
  let r := train_deploy_evaluate collaborators me w in
  outcome r = inr rows ->
  exists dataset trained deployed first rest piece,
    let trained_self := self.with_model_id (Some (name trained)) me in
    trace r =
      [Called (dataset_request None me) (inr dataset);
       Called (training_request dataset None None None None None me)
         (inr trained);
       Called (deploy_request (Some (name trained)) me) (inr deployed);
       Called (evaluation_request (Some piece) None None trained_self)
         (inr rows)] /\
    deployed_models (gca_resource deployed) = first :: rest /\
    index_last (str.split "/" (endpoint first)) = inr piece /\
    self_after r = self.with_endpoint_id (Some piece) trained_self.
Proof.
  cbv zeta. unfold train_deploy_evaluate.
  destruct (outcome (CrystalValue.train collaborators None None None None
                       None None me w)) as [e|trained] eqn:Htrain;
    [rewrite (bind_failed _ _ _ _ _ Htrain); discriminate|].
  rewrite (bind_done _ _ _ _ _ Htrain). cbv zeta.
  cbn [outcome self_after world_after trace].
  destruct (train_success _ _ _ _ _ _ _ _ _ Htrain)
    as (dataset & Hself & Htrace).
  rewrite Hself, Htrace. clear Hself Htrace Htrain.
  set (me1 := self.with_model_id (Some (name trained)) me).
  generalize (world_after (CrystalValue.train collaborators None None None
                             None None None me w)).
  intros w1.
  destruct (outcome (CrystalValue.deploy_model collaborators None me1 w1))
    as [e|deployed] eqn:Hdeploy;
    [rewrite (bind_failed _ _ _ _ _ Hdeploy); discriminate|].
  rewrite (bind_done _ _ _ _ _ Hdeploy). cbv zeta.
  cbn [outcome self_after world_after trace].
  destruct (deploy_model_success _ _ _ _ Hdeploy)
    as (first & rest & piece & Hfirst & Hpiece & Hself & Htrace).
  rewrite Hself, Htrace. clear Hself Htrace Hdeploy.
  generalize (world_after (CrystalValue.deploy_model collaborators None me1
                             w1)).
  intros w2.
  destruct (evaluate_model_run None None None
              (self.with_endpoint_id (Some piece) me1) w2)
    as (Hself & Htrace).
  rewrite Hself, Htrace. intros ->.
  exists dataset, trained, deployed, first, rest, piece.
  repeat split; assumption.
Qed.
End Workflow.

(** ** Feature engineering, call after call *)

Lemma dict_get_unique_key {V : Type} (d : list (string * V)) key v :
  NoDup (map fst d) -> In (key, v) d -> dict_get d key = inr v.
Proof.
  induction d as [|[k v'] d IH]; cbn; [intros _ []|].
  intros Hnodup Hin. apply NoDup_cons in Hnodup.
  destruct Hnodup as [Hfresh Hnodup].
  destruct (String.eqb k key) eqn:E.
  - apply String.eqb_eq in E. subst k.
    destruct Hin as [[= ->]|Hin]; [reflexivity|].
    contradiction Hfresh. apply list_elem_of_In, List.in_map_iff.
    exists (key, v). auto.
  - apply String.eqb_neq in E.
    destruct Hin as [[= -> _]|Hin]; [congruence|]. auto.
Qed.

Lemma detection_ignore_columns_cons (s : self.t) :
  detection_ignore_columns s =
  self.customer_id_column s :: self.date_column s
    :: match self.ignore_columns s with
       | Some (py_list supplied) => supplied
       | _ => []
       end.
Proof.
  unfold detection_ignore_columns.
  destruct (self.ignore_columns s) as [[| | |]|]; reflexivity.
Qed.

(** A non-empty collection that is not a list cannot be added to one. *)
Lemma truthy_non_list (x : option Collection) :
  truth x = true -> (forall items, x <> Some (py_list items)) ->
  concatenable x = false.
Proof.
  destruct x as [[items|items|items|text]|]; cbn; try discriminate.
  - intros _ H. contradiction (H items). reflexivity.
  - intros ->. reflexivity.
  - intros ->. reflexivity.
  - intros ->. reflexivity.
Qed.

Section Calls.
Context {W : Type}.
Variable collaborators : platform W.

(** The records one feature type contributes. *)
Lemma feature_logs_run (feature_type : string) (features : list string)
    (me : self.t) (w : W) :
  let r := for_each features (fun feature =>
             logging_info "Detected %r feature %r" [feature_type; feature])
             me w in
  outcome r = inr tt /\ self_after r = me /\ world_after r = w /\
  trace r =
    map (fun feature => Logged "Detected %r feature %r" [feature_type; feature])
        features.
Proof.
  cbv zeta. induction features as [|feature features IH];
    [cbn; auto|].
  cbn [for_each]. destruct IH as (Ho & Hs & Hw & Ht).
  unfold bind. cbn. rewrite Ho, Hs, Hw, Ht. auto.
Qed.

(** The records of the whole loop, when the keys of the mapping are
    distinct (as the keys of a dictionary are). *)
Lemma logging_loop_trace (features_types entries : FeatureTypes)
    (me : self.t) (w : W) :
  (forall key features,
      In (key, features) entries ->
      dict_get features_types key = inr features) ->
  trace (for_each (map fst entries) (fun feature_type =>
           bind (lift (dict_get features_types feature_type))
             (fun features =>
                for_each features (fun feature =>
                  logging_info "Detected %r feature %r"
                    [feature_type; feature])))
           me w) =
  detection_logs entries.
Proof.
  induction entries as [|[key features] entries IH]; intros Hget;
    [reflexivity|].
  cbn [map fst for_each].
  assert (Hhead : only_logs (W:=W)
            (bind (lift (dict_get features_types key))
               (fun features =>
                  for_each features (fun feature =>
                    logging_info "Detected %r feature %r" [key; feature])))
            tt /\
          trace (bind (lift (dict_get features_types key))
                   (fun features =>
                      for_each features (fun feature =>
                        logging_info "Detected %r feature %r"
                          [key; feature])) me w) =
          map (fun feature => Logged "Detected %r feature %r" [key; feature])
              features).
  { rewrite (Hget key features (or_introl eq_refl)). cbn [lift]. split.
    - intros me' w'. rewrite bind_ret.
      destruct (feature_logs_run key features me' w') as (Ho & Hs & Hw & Ht).
      repeat split; auto. rewrite Ht. clear.
      induction features; constructor; [exact I | assumption].
    - rewrite bind_ret. apply feature_logs_run. }
  destruct Hhead as (Hlogs & Htrace).
  destruct (Hlogs me w) as (Ho & Hs & Hw & _).
  rewrite (bind_done _ _ _ _ _ Ho). cbn [trace].
  rewrite Hs, Hw, Htrace, IH; [reflexivity|].
  intros k fs Hin. apply Hget. right. exact Hin.
Qed.

(** The trace of the detection block when features are found. *)
Lemma detection_block_trace (table : string) (me : self.t) (w : W)
    (detected : FeatureTypes) (w1 : W) :
  concatenable (self.ignore_columns me) = true ->
  collaborators (detect_request table me) w = (inr detected, w1) ->
  detected <> [] -> NoDup (map fst detected) ->
  trace (detection_block collaborators table me me w) =
  Called (detect_request table me) (inr detected) :: detection_logs detected.
Proof.
  intros Hlist Hdetect Hsome Hkeys. unfold detection_block.
  rewrite (overwrite_ignore_columns_run _ _ _ Hlist).
  rewrite bind_get_self, bind_invoke.
  cbn [self.bigquery_client self.dataset_id self.ignore_columns
         self.with_ignore_columns].
  unfold detect_request in Hdetect |- *. rewrite Hdetect.
  cbv zeta. rewrite bind_assign, bind_get_self.
  cbn [self.features_types self.with_features_types default from_option id
         outcome self_after world_after trace].
  change (truth (Some detected)) with (truth detected).
  destruct detected as [|entry entries]; [congruence|].
  cbn [truth truth_list negb]. rewrite bind_ret. f_equal.
  apply logging_loop_trace. intros key features Hin.
  apply dict_get_unique_key; assumption.
Qed.

(** A successful run of the statements after the detection block. *)
Lemma build_and_run_success table query_type file me w rows :
  let kind := kwarg query_type "train_query" in
  let t := build_and_run collaborators table query_type file me w in
  outcome t = inr rows ->
  exists sql table_name,
    (kind = "train_query" /\ table_name = self.training_table_name me \/
     kind = "predict_query" /\ table_name = self.predict_table_name me) /\
    last (trace t) =
      Some (Called (run_query_request table_name sql me) (inr rows)).
Proof.
  cbv zeta.
  destruct (build_and_run_run collaborators table query_type file me w)
    as (_ & Ht).
  cbv zeta in Ht.
  destruct (collaborators (build_request table query_type file me) w)
    as [[e|sql] w1].
  - destruct Ht as (-> & _). discriminate.
  - destruct (String.eqb (kwarg query_type "train_query") "train_query")
      eqn:Etrain.
    + apply String.eqb_eq in Etrain.
      destruct (collaborators _ w1) as [answer w2].
      destruct Ht as (-> & _ & ->). intros ->.
      exists sql, (self.training_table_name me). auto.
    + destruct (String.eqb (kwarg query_type "train_query") "predict_query")
        eqn:Epredict.
      * apply String.eqb_eq in Epredict.
        destruct (collaborators _ w1) as [answer w2].
        destruct Ht as (-> & _ & ->). intros ->.
        exists sql, (self.predict_table_name me). auto.
      * destruct Ht as (-> & _). discriminate.
Qed.

Lemma last_after (prefix rest : list event) ev :
  last rest = Some ev -> last (prefix ++ rest) = Some ev.
Proof. intros H. rewrite last_app, H. reflexivity. Qed.

(** X10: [feature_engineer] returns rows only by running the query: after
    a successful call the last thing done was [run_query] of a built query
    into the training table ('train_query') or the prediction table
    ('predict_query'), the rows are its answer, and the instance holds a
    non-empty feature-type mapping. *)
Theorem feature_engineer_success
    (table : string) (query_type file : option string)
    (me : self.t) (w : W) (rows : DataFrame) :
  let kind := kwarg query_type "train_query" in
  let r := CrystalValue.feature_engineer collaborators table query_type
             file me w in
  outcome r = inr rows ->
  truth (self.features_types (self_after r)) = true /\
  exists sql table_name,
    (kind = "train_query" /\ table_name = self.training_table_name me \/
     kind = "predict_query" /\ table_name = self.predict_table_name me) /\
    last (trace r) =
      Some (Called (run_query_request table_name sql me) (inr rows)).
Proof.
  cbv zeta. destruct (truth (self.features_types me)) eqn:Hset.
  - rewrite (feature_engineer_skips collaborators _ _ _ _ _ Hset).
    intros Hok. split.
    + rewrite (proj1 (build_and_run_run collaborators table query_type
                        file me w)). exact Hset.
    + apply build_and_run_success. exact Hok.
  - destruct (concatenable (self.ignore_columns me)) eqn:Hlist;
      [|rewrite (feature_engineer_type_error collaborators _ _ _ _ _
                   Hset Hlist); discriminate].
    pose proof (feature_engineer_detection_run collaborators table
                  query_type file me w Hset Hlist) as Hr.
    cbv zeta in Hr.
    destruct (collaborators (detect_request table me) w)
      as [[e|detected] w1].
    + destruct Hr as (-> & _). discriminate.
    + destruct Hr as (Hs & Hr).
      destruct detected as [|entry entries]; cbn [truth truth_list] in Hr.
      * destruct Hr as (-> & _). discriminate.
      * destruct Hr as (Ho & _ & logs & _ & Ht).
        rewrite Ho, Hs, Ht. intros Hok. split; [reflexivity|].
        destruct (build_and_run_success _ _ _ _ _ _ Hok)
          as (sql & table_name & Hkind & Hlast).
        exists sql, table_name. split; [exact Hkind|].
        rewrite app_comm_cons. apply last_after. exact Hlast.
Qed.

(** X8: detection runs once.  After a call whose detector found features
    (whatever became of that call afterwards), the instance holds the
    detected mapping, and a later call, for any table and query type,
    detects nothing: it leaves the instance as it is, logs nothing, and
    builds its query from the mapping detected before. *)
Theorem detection_runs_once
    (table : string) (query_type file : option string)
    (table' : string) (query_type' file' : option string)
    (me : self.t) (w w' : W) (detected : FeatureTypes) (w1 : W) :
  truth (self.features_types me) = false ->
  concatenable (self.ignore_columns me) = true ->
  collaborators (detect_request table me) w = (inr detected, w1) ->
  detected <> [] ->
  let me' :=
    self_after (CrystalValue.feature_engineer collaborators table
                  query_type file me w) in
  let r' := CrystalValue.feature_engineer collaborators table' query_type'
              file' me' w' in
  self.features_types me' = Some detected /\
  self_after r' = me' /\
  length (trace r') = length (requests (trace r')) /\
  (requests (trace r') = [build_request table' query_type' file' me'] \/
   exists table_name sql,
     requests (trace r') =
       [build_request table' query_type' file' me';
        run_query_request table_name sql me']).
Proof.
  intros Hunset Hlist Hdetect Hsome. cbv zeta.
  pose proof (feature_engineer_detection_run collaborators table
                query_type file me w Hunset Hlist) as Hr.
  cbv zeta in Hr. rewrite Hdetect in Hr. destruct Hr as (-> & _).
  split; [reflexivity|].
  assert (Hset : truth (self.features_types
                          (self.with_features_types (Some detected)
                             (self.with_ignore_columns
                                (Some (py_list (detection_ignore_columns me))) me))) =
                 true).
  { destruct detected; [congruence | reflexivity]. }
  rewrite (feature_engineer_skips collaborators _ _ _ _ _ Hset).
  apply build_and_run_requests.
Qed.

(** X9: a detection that fails is repeated, and each attempt prepends the
    two key columns again.  If the detector raised, or found nothing, the
    instance still has no usable mapping, and the next call asks the
    detector to ignore the customer-id and date columns twice over,
    followed by the columns supplied at the start. *)
Theorem failed_detection_repeats_key_columns
    (table : string) (query_type file : option string)
    (table' : string) (query_type' file' : option string)
    (me : self.t) (w w' : W) (answer : exn + FeatureTypes) (w1 : W) :
  truth (self.features_types me) = false ->
  concatenable (self.ignore_columns me) = true ->
  collaborators (detect_request table me) w = (answer, w1) ->
  match answer with inl _ => True | inr detected => detected = [] end ->
  let me' :=
    self_after (CrystalValue.feature_engineer collaborators table
                  query_type file me w) in
  let r' := CrystalValue.feature_engineer collaborators table' query_type'
              file' me' w' in
  let repeated :=
    self.customer_id_column me :: self.date_column me
      :: self.customer_id_column me :: self.date_column me
      :: match self.ignore_columns me with
         | Some (py_list supplied) => supplied
         | _ => []
         end in
  truth (self.features_types me') = false /\
  self.ignore_columns (self_after r') = Some (py_list repeated) /\
  exists answer' rest,
    trace r' =
      Called (feature_engineering_detect_feature_types
                (self.bigquery_client me) (self.dataset_id me) table'
                (Some (py_list repeated))) answer' :: rest.
Proof.
  intros Hunset Hlist Hdetect Hfailed. cbv zeta.
  pose proof (feature_engineer_detection_run collaborators table
                query_type file me w Hunset Hlist) as Hr.
  cbv zeta in Hr. rewrite Hdetect in Hr.
  set (me' := self_after _).
  assert (Hme' : truth (self.features_types me') = false /\
                 concatenable (self.ignore_columns me') = true /\
                 detection_ignore_columns me' =
                   self.customer_id_column me :: self.date_column me
                     :: self.customer_id_column me :: self.date_column me
                     :: match self.ignore_columns me with
                        | Some (py_list supplied) => supplied
                        | _ => []
                        end /\
                 self.bigquery_client me' = self.bigquery_client me /\
                 self.dataset_id me' = self.dataset_id me).
  { subst me'. destruct answer as [e|detected].
    - destruct Hr as (_ & -> & _).
      cbn. rewrite (detection_ignore_columns_cons me). auto.
    - subst detected. destruct Hr as (-> & _).
      cbn. rewrite (detection_ignore_columns_cons me). auto. }
  destruct Hme' as (Hunset' & Hlist' & Hignore & Hclient & Hdataset).
  split; [exact Hunset'|]. split.
  - rewrite (ignore_columns_after_detection collaborators _ _ _ _ _ Hunset'
               Hlist').
    rewrite Hignore. reflexivity.
  - pose proof (feature_engineer_detection_run collaborators table'
                  query_type' file' me' w' Hunset' Hlist') as Hr'.
    cbv zeta in Hr'. unfold detect_request in Hr'.
    rewrite Hignore, Hclient, Hdataset in Hr'.
    destruct (collaborators _ w') as [[e|detected'] w2].
    + destruct Hr' as (_ & _ & _ & ->). eauto.
    + destruct Hr' as (_ & Hr'). destruct (truth detected').
      * destruct Hr' as (_ & _ & logs & _ & ->). eauto.
      * destruct Hr' as (_ & _ & ->). eauto.
Qed.

(** X11: the detection loop writes one log record for each detected
    feature, type by type in the order of the mapping, right after the
    detector call and before anything else is called. *)
Theorem detection_logs_every_feature
    (table : string) (query_type file : option string)
    (me : self.t) (w : W) (detected : FeatureTypes) (w1 : W) :
  truth (self.features_types me) = false ->
  concatenable (self.ignore_columns me) = true ->
  collaborators (detect_request table me) w = (inr detected, w1) ->
  detected <> [] -> NoDup (map fst detected) ->
  let r := CrystalValue.feature_engineer collaborators table query_type
             file me w in
  exists rest,
    trace r =
      Called (detect_request table me) (inr detected)
        :: detection_logs detected ++ rest /\
    length rest = length (requests rest) /\
    length (detection_logs detected) = length (classified_columns detected).
Proof.
  intros Hunset Hlist Hdetect Hsome Hkeys. cbv zeta.
  pose proof (feature_engineer_detects collaborators table query_type file
                me w Hunset) as Hr.
  pose proof (detect_features_run collaborators table me w Hlist) as Hd.
  cbv zeta in Hr, Hd. rewrite Hdetect in Hd.
  destruct Hd as (_ & _ & Hd).
  destruct detected as [|entry entries]; [congruence|].
  cbn [truth truth_list] in Hd. destruct Hd as (Ho & _).
  rewrite Ho in Hr. destruct Hr as (_ & _ & _ & ->).
  rewrite (detection_block_trace table me w _ w1 Hlist Hdetect Hsome Hkeys).
  eexists. split; [reflexivity|]. split.
  - apply build_and_run_requests.
  - clear. generalize (entry :: entries). intros ft.
    unfold detection_logs, classified_columns.
    induction ft as [|[key features] ft IH]; [reflexivity|].
    cbn [flat_map fst snd]. rewrite !length_app, length_map, IH.
    reflexivity.
Qed.


(** X14: when [features_types] is unset and [ignore_columns] is unset,
    empty or a list, [feature_engineer] overwrites [ignore_columns] with
    the list of the customer-id and date columns followed by the columns
    listed before; that list is what the detector, the first thing
    called, is told to ignore, it names both key columns, and it is still
    on the instance after the call, whatever the call's outcome. *)
Theorem detection_ignores_id_and_date
    (table : string) (query_type file : option string)
    (me : self.t) (w : W) :
  truth (self.features_types me) = false ->
  concatenable (self.ignore_columns me) = true ->
  let r := CrystalValue.feature_engineer collaborators table query_type
             file me w in
  let ignored :=
    match self.ignore_columns me with
    | Some (py_list supplied) =>
        self.customer_id_column me :: self.date_column me :: supplied
    | _ => [self.customer_id_column me; self.date_column me]
    end in
  self.ignore_columns (self_after r) = Some (py_list ignored) /\
  (exists answer rest,
      trace r =
        Called (feature_engineering_detect_feature_types
                  (self.bigquery_client me) (self.dataset_id me) table
                  (Some (py_list ignored))) answer :: rest) /\
  In (self.customer_id_column me) ignored /\
  In (self.date_column me) ignored.
Proof.
  intros Hunset Hlist. cbv zeta.
  replace (match self.ignore_columns me with
           | Some (py_list supplied) =>
               self.customer_id_column me :: self.date_column me :: supplied
           | _ => [self.customer_id_column me; self.date_column me]
           end) with (detection_ignore_columns me)
    by (unfold detection_ignore_columns;
        destruct (self.ignore_columns me) as [[| | |]|]; reflexivity).
  destruct (detection_ignore_columns_ids me) as (Hid & Hdate).
  repeat apply conj; auto.
  - apply ignore_columns_after_detection; assumption.
  - pose proof (feature_engineer_detection_run collaborators table
                  query_type file me w Hunset Hlist) as Hr.
    cbv zeta in Hr. unfold detect_request in Hr.
    destruct (collaborators _ w) as [[e|detected] w1].
    + destruct Hr as (_ & _ & _ & ->). eauto.
    + destruct Hr as (_ & Hr). destruct (truth detected).
      * destruct Hr as (_ & _ & logs & _ & ->). eauto.
      * destruct Hr as (_ & _ & ->). eauto.
Qed.

(** X15: when [features_types] is unset and [ignore_columns] holds a
    non-empty collection that is not a list (a tuple, a set, a string),
    [feature_engineer] ends in [TypeError] at the concatenation: nothing
    was assigned, nothing called and nothing logged.  With [features_types]
    set, the same instance builds its query as usual. *)
Theorem non_list_ignore_columns_raise
    (table : string) (query_type file : option string)
    (me : self.t) (w : W) :
  truth (self.ignore_columns me) = true ->
  (forall items, self.ignore_columns me <> Some (py_list items)) ->
  let r := CrystalValue.feature_engineer collaborators table query_type
             file me w in
  (truth (self.features_types me) = false ->
   outcome r = inl (TypeError (type_name (self.ignore_columns me))) /\
   self_after r = me /\ world_after r = w /\ trace r = []) /\
  (truth (self.features_types me) = true ->
   exists answer rest,
     trace r = Called (build_request table query_type file me) answer
                 :: rest).
Proof.
  intros Htruthy Hother. cbv zeta. split.
  - intros Hunset.
    rewrite (feature_engineer_type_error collaborators _ _ _ _ _ Hunset
               (truthy_non_list _ Htruthy Hother)).
    cbn. auto.
  - intros Hset.
    rewrite (feature_engineer_skips collaborators _ _ _ _ _ Hset).
    destruct (build_and_run_run collaborators table query_type file me w)
      as (_ & Ht).
    cbv zeta in Ht.
    destruct (collaborators (build_request table query_type file me) w)
      as [[e|sql] w1].
    + destruct Ht as (_ & _ & ->). eauto.
    + destruct (if String.eqb _ _ then _ else _) as [table_name|].
      * destruct (collaborators _ w1) as [answer w2].
        destruct Ht as (_ & _ & ->). eauto.
      * destruct Ht as (_ & _ & ->). eauto.
Qed.
End Calls.

(** ** Where exceptions come from *)

Section Origins.
Context {W : Type}.
Variable collaborators : platform W.

Lemma build_and_run_origin table query_type file me w e :
  let t := build_and_run collaborators table query_type file me w in
  outcome t = inl e ->
  e = UnboundLocalError "table_name" \/
  exists ev, last (trace t) = Some ev /\ raised ev = Some e.
Proof.
  cbv zeta.
  destruct (build_and_run_run collaborators table query_type file me w)
    as (_ & Ht).
  cbv zeta in Ht.
  destruct (collaborators (build_request table query_type file me) w)
    as [[e'|sql] w1].
  - destruct Ht as (-> & _ & ->). intros [= <-]. right. eauto.
  - destruct (if String.eqb _ _ then _ else _) as [table_name|].
    + destruct (collaborators _ w1) as [answer w2].
      destruct Ht as (-> & _ & ->). intros ->. right. eauto.
    + destruct Ht as (-> & _). intros [= <-]. left. reflexivity.
Qed.

(** X13: the methods raise very little themselves.  Six of them raise
    nothing of their own: whatever exception they end with is the one
    their last collaborator call raised.  [deploy_model] adds only the
    [IndexError] for a model without deployed models, and
    [feature_engineer] only 'No features detected', the unbound
    [table_name], and the [TypeError] of adding to a list an
    [ignore_columns] that is not one; in particular its logging loop never
    fails on a key. *)
Theorem exceptions_originate :
  (forall table_name row_count start_date end_date,
      originates (fun _ => False)
        (CrystalValue.create_synthetic_data collaborators table_name
           row_count start_date end_date)) /\
  (forall table places summary,
      originates (fun _ => False)
        (CrystalValue.run_data_checks collaborators table places summary)) /\
  (forall dest sql file,
      originates (fun _ => False)
        (CrystalValue.run_query collaborators dest sql file)) /\
  (forall dataset_name model_name split_column target objective budget,
      originates (fun _ => False)
        (CrystalValue.train collaborators dataset_name model_name
           split_column target objective budget)) /\
  (forall input model_id model_name dest,
      originates (fun _ => False)
        (CrystalValue.batch_predict collaborators input model_id model_name
           dest)) /\
  (forall endpoint_id table bins,
      originates (fun _ => False)
        (CrystalValue.evaluate_model collaborators endpoint_id table bins)) /\
  (forall model_id,
      originates (fun e => e = IndexError "list index out of range")
        (CrystalValue.deploy_model collaborators model_id)) /\
  (forall table query_type file,
      originates (fun e => e = ValueError "No features detected" \/
                           e = UnboundLocalError "table_name" \/
                           exists operand, e = TypeError operand)
        (CrystalValue.feature_engineer collaborators table query_type file)).
Proof.
  repeat apply conj.
  - intros table_name row_count start_date end_date me w e.
    unfold CrystalValue.create_synthetic_data. run_body.
    answer_calls; intros [= <-]. right. eauto.
  - intros table places summary me w e.
    unfold CrystalValue.run_data_checks. run_body.
    answer_calls; intros [= <-]. right. eauto.
  - intros dest sql file me w e.
    unfold CrystalValue.run_query. run_body.
    answer_calls; intros [= <-]. right. eauto.
  - intros dataset_name model_name split_column target objective budget
           me w e.
    unfold CrystalValue.train. cbv zeta.
    step. step_call; [intros [= <-]; right; eauto|].
    step_call; [intros [= <-]; right; eauto|].
    step. unfold ret. settle. discriminate.
  - intros input model_id model_name dest me w e.
    unfold CrystalValue.batch_predict. cbv zeta.
    step. step_call; [intros [= <-]; right; eauto|].
    last_call; intros [= <-]. right. eauto.
  - intros endpoint_id table bins me w e.
    unfold CrystalValue.evaluate_model. cbv zeta.
    step. last_call; intros [= <-]. right. eauto.
  - intros model_id me w e.
    unfold CrystalValue.deploy_model. cbv zeta.
    step. step_call; [intros [= <-]; right; eauto|].
    destruct (deployed_models (gca_resource answer)) as [|first rest];
      settle; [step; intros [= <-]; left; reflexivity|].
    step.
    destruct (index_last_some (str.split "/" (endpoint first))
                (split_not_nil _ _)) as [piece ->].
    settle. step. step. unfold ret. settle. discriminate.
  - intros table query_type file me w e.
    destruct (truth (self.features_types me)) eqn:Hset.
    + rewrite (feature_engineer_skips collaborators _ _ _ _ _ Hset).
      intros Hfail.
      destruct (build_and_run_origin _ _ _ _ _ _ Hfail) as [->|Hlast];
        auto.
    + destruct (concatenable (self.ignore_columns me)) eqn:Hlist.
      2:{ rewrite (feature_engineer_type_error collaborators _ _ _ _ _
                     Hset Hlist).
          intros [= <-]. left. eauto. }
      pose proof (feature_engineer_detection_run collaborators table
                    query_type file me w Hset Hlist) as Hr.
      cbv zeta in Hr.
      destruct (collaborators (detect_request table me) w)
        as [[e'|detected] w1].
      * destruct Hr as (-> & _ & _ & ->). intros [= <-]. right. eauto.
      * destruct Hr as (_ & Hr). destruct (truth detected).
        -- destruct Hr as (-> & _ & logs & _ & ->). intros Hfail.
           destruct (build_and_run_origin _ _ _ _ _ _ Hfail)
             as [->|(ev & Hlast & Hraised)]; [auto|].
           right. exists ev. split; [|exact Hraised].
           rewrite app_comm_cons. apply last_after. exact Hlast.
        -- destruct Hr as (-> & _). intros [= <-]. auto.
Qed.
End Origins.

(** ** Concrete runs for the further properties *)

Lemma supplied_features_skip_detection_witness :
  let r := CrystalValue.feature_engineer (sample_platform (inr []) [])
             "transactions" None None sample_self_with_features 0%nat in
  self_after r = sample_self_with_features /\
  length (trace r) = length (requests (trace r)).
Proof.
  cbv zeta.
  destruct (supplied_features_skip_detection (sample_platform (inr []) [])
              "transactions" None None sample_self_with_features 0%nat
              eq_refl) as (Hself & Hcalls & _).
  split; assumption.
Defined.

Lemma failed_train_changes_nothing_witness :
  let r := CrystalValue.train (failing_platform (ServiceError "quota"))
             None None None None None None sample_self 0%nat in
  self_after r = sample_self /\
  trace r =
    [Called (dataset_request None sample_self) (inl (ServiceError "quota"))].
Proof.
  cbv zeta.
  destruct (failed_train_changes_nothing
              (failing_platform (ServiceError "quota"))
              None None None None None None sample_self 0%nat)
    as (Hfailed & Hdataset).
  split.
  - apply (Hfailed (ServiceError "quota")). reflexivity.
  - apply (Hdataset (ServiceError "quota") 1%nat). reflexivity.
Defined.

Lemma deploy_model_needs_a_deployed_model_witness :
  (let r := CrystalValue.deploy_model (sample_platform (inr []) []) None
              sample_self 0%nat in
   outcome r = inl (IndexError "list index out of range") /\
   self_after r = sample_self /\ world_after r = 1%nat) /\
  (let r := CrystalValue.deploy_model
              (sample_platform (inr []) [sample_endpoint]) None
              sample_self 0%nat in
   outcome r = inr (sample_model [sample_endpoint])).
Proof.
  split; cbv zeta.
  - destruct (deploy_model_needs_a_deployed_model
                (sample_platform (inr []) []) None sample_self 0%nat
                (sample_model []) 1%nat) as (_ & Hdeployed).
    destruct (Hdeployed eq_refl) as (Hempty & _).
    destruct (Hempty eq_refl) as (Ho & Hs & Hw & _). auto.
  - destruct (deploy_model_needs_a_deployed_model
                (sample_platform (inr []) [sample_endpoint]) None
                sample_self 0%nat (sample_model [sample_endpoint]) 1%nat)
      as (_ & Hdeployed).
    destruct (Hdeployed eq_refl) as (_ & Hsome).
    apply Hsome. discriminate.
Defined.

Lemma deploy_model_stores_endpoint_suffix_witness :
  self.endpoint_id
    (self_after (CrystalValue.deploy_model
                   (sample_platform (inr []) [sample_endpoint]) None
                   sample_self 0%nat)) = Some "4242".
Proof.
  apply (deploy_model_stores_endpoint_suffix
           (sample_platform (inr []) [sample_endpoint]) None sample_self
           0%nat (sample_model [sample_endpoint]) 1%nat sample_endpoint []
           "4242").
  - reflexivity.
  - reflexivity.
  - reflexivity.
  - right. exists "projects/12/locations/europe-west4/endpoints".
    reflexivity.
Defined.

Lemma workflow_passes_identifiers_on_witness :
  let r := train_deploy_evaluate
             (sample_platform (inr []) [sample_endpoint]) sample_self
             0%nat in
  outcome r = inr [] /\
  exists trained piece,
    self_after r =
      self.with_endpoint_id (Some piece)
        (self.with_model_id (Some (name trained)) sample_self).
Proof.
  cbv zeta. split; [reflexivity|].
  destruct (workflow_passes_identifiers_on
              (sample_platform (inr []) [sample_endpoint]) sample_self
              0%nat [] eq_refl)
    as (dataset & trained & deployed & first & rest & piece & _ & _ & _ & Hs).
  exists trained, piece. exact Hs.
Defined.

Lemma batch_predict_loads_created_job_witness :
  (let r := CrystalValue.batch_predict (sample_platform (inr []) [])
              "predict_features_data" (Some "553728129496821") None None
              sample_self 0%nat in
   outcome r = inr tt /\ world_after r = 2%nat) /\
  (let r := CrystalValue.batch_predict
              (failing_platform (ServiceError "quota"))
              "predict_features_data" (Some "553728129496821") None None
              sample_self 0%nat in
   outcome r = inl (ServiceError "quota") /\ world_after r = 1%nat).
Proof.
  split; cbv zeta.
  - destruct (batch_predict_loads_created_job (sample_platform (inr []) [])
                "predict_features_data" (Some "553728129496821") None None
                sample_self 0%nat) as (_ & Hcreated).
    destruct (Hcreated {| job_resource_name := "batchPredictionJobs/3" |}
                1%nat (inr tt) 2%nat eq_refl eq_refl) as (Ho & Hw & _).
    auto.
  - destruct (batch_predict_loads_created_job
                (failing_platform (ServiceError "quota"))
                "predict_features_data" (Some "553728129496821") None None
                sample_self 0%nat) as (Hfailed & _).
    destruct (Hfailed (ServiceError "quota") 1%nat eq_refl) as (Ho & Hw & _).
    auto.
Defined.

Lemma feature_engineer_success_witness :
  let r := CrystalValue.feature_engineer
             (sample_platform (inr [("numeric", ["transaction_value"])]) [])
             "transactions" (Some "predict_query") None sample_self 0%nat in
  truth (self.features_types (self_after r)) = true.
Proof.
  cbv zeta.
  destruct (feature_engineer_success
              (sample_platform (inr [("numeric", ["transaction_value"])]) [])
              "transactions" (Some "predict_query") None sample_self 0%nat
              [["c1"; "10"]] eq_refl) as (Hset & _).
  exact Hset.
Defined.

Lemma detection_runs_once_witness :
  let platform_ :=
    sample_platform (inr [("numeric", ["transaction_value"])]) [] in
  let me' :=
    self_after (CrystalValue.feature_engineer platform_ "transactions"
                  None None sample_self 0%nat) in
  self.features_types me' = Some [("numeric", ["transaction_value"])] /\
  self_after (CrystalValue.feature_engineer platform_ "transactions"
                (Some "predict_query") None me' 3%nat) = me'.
Proof.
  cbv zeta.
  destruct (detection_runs_once
              (sample_platform (inr [("numeric", ["transaction_value"])]) [])
              "transactions" None None
              "transactions" (Some "predict_query") None
              sample_self 0%nat 3%nat
              [("numeric", ["transaction_value"])] 1%nat
              eq_refl eq_refl eq_refl ltac:(discriminate))
    as (Hfeatures & Hself & _).
  split; assumption.
Defined.

Lemma failed_detection_repeats_key_columns_witness :
  let platform_ := sample_platform (inr []) [] in
  let me' :=
    self_after (CrystalValue.feature_engineer platform_ "transactions"
                  None None sample_self 0%nat) in
  self.ignore_columns
    (self_after (CrystalValue.feature_engineer platform_ "transactions"
                   None None me' 1%nat)) =
  Some (py_list ["customer_id"; "date"; "customer_id"; "date"]).
Proof.
  cbv zeta.
  destruct (failed_detection_repeats_key_columns
              (sample_platform (inr []) [])
              "transactions" None None "transactions" None None
              sample_self 0%nat 1%nat (inr []) 1%nat
              eq_refl eq_refl eq_refl eq_refl)
    as (_ & Hignore & _).
  exact Hignore.
Defined.

Lemma detection_logs_every_feature_witness :
  let detected :=
    [("numeric", ["transaction_value"; "number_products"]);
     ("boolean", ["is_registered_customer"])] in
  exists rest,
    trace (CrystalValue.feature_engineer (sample_platform (inr detected) [])
             "transactions" None None sample_self 0%nat) =
    Called (detect_request "transactions" sample_self) (inr detected)
      :: detection_logs detected ++ rest.
Proof.
  cbv zeta.
  destruct (detection_logs_every_feature
              (sample_platform
                 (inr [("numeric", ["transaction_value"; "number_products"]);
                       ("boolean", ["is_registered_customer"])]) [])
              "transactions" None None sample_self 0%nat
              [("numeric", ["transaction_value"; "number_products"]);
               ("boolean", ["is_registered_customer"])] 1%nat
              eq_refl eq_refl eq_refl ltac:(discriminate)
              ltac:(apply NoDup_cons; split;
                    [intros H; apply list_elem_of_In in H;
                     destruct H as [H|[]]; discriminate H
                    |apply NoDup_cons; split;
                     [intros H; apply list_elem_of_In in H; destruct H
                     |apply NoDup_nil_2]]))
    as (rest & Htrace & _).
  exists rest. exact Htrace.
Defined.


Lemma exceptions_originate_witness :
  (let r := CrystalValue.train (failing_platform (ServiceError "quota"))
              None None None None None None sample_self 0%nat in
   exists ev,
     last (trace r) = Some ev /\ raised ev = Some (ServiceError "quota")) /\
  (let r := CrystalValue.feature_engineer
              (failing_platform (ServiceError "quota"))
              "transactions" None None sample_self_with_tuple 0%nat in
   outcome r = inl (TypeError "tuple") /\ last (trace r) = None).
Proof.
  cbv zeta.
  destruct (exceptions_originate (failing_platform (ServiceError "quota")))
    as (_ & _ & _ & Htrain & _ & _ & _ & Hfeatures).
  split.
  - destruct (Htrain None None None None None None sample_self 0%nat
                (ServiceError "quota") eq_refl) as [[]|Hlast].
    exact Hlast.
  - split; [reflexivity|].
    destruct (Hfeatures "transactions" None None sample_self_with_tuple
                0%nat (TypeError "tuple") eq_refl)
      as [Hown|(ev & Hlast & Hraised)]; reflexivity.
Defined.

Lemma detection_ignores_id_and_date_witness :
  let me :=
    self.with_ignore_columns (Some (py_list ["webpage_id_column"]))
      sample_self in
  let r := CrystalValue.feature_engineer
             (sample_platform (inr [("numeric", ["transaction_value"])]) [])
             "transactions" None None me 0%nat in
  self.ignore_columns (self_after r) =
    Some (py_list ["customer_id"; "date"; "webpage_id_column"]) /\
  exists answer rest,
    trace r =
      Called (feature_engineering_detect_feature_types
                {| project := "my-project" |} "an_existing_dataset"
                "transactions"
                (Some (py_list ["customer_id"; "date"; "webpage_id_column"])))
             answer :: rest.
Proof.
  cbv zeta.
  destruct (detection_ignores_id_and_date
              (sample_platform (inr [("numeric", ["transaction_value"])]) [])
              "transactions" None None
              (self.with_ignore_columns (Some (py_list ["webpage_id_column"]))
                 sample_self)
              0%nat eq_refl eq_refl) as (Hignore & Hcall & _).
  split; [exact Hignore | exact Hcall].
Defined.

Lemma non_list_ignore_columns_raise_witness :
  let me :=
    self.with_ignore_columns (Some (py_str "webpage_id_column"))
      sample_self in
  let r := CrystalValue.feature_engineer
             (sample_platform (inr [("numeric", ["transaction_value"])]) [])
             "transactions" None None me 0%nat in
  outcome r = inl (TypeError "str") /\ self_after r = me /\ trace r = [].
Proof.
  cbv zeta.
  destruct (non_list_ignore_columns_raise
              (sample_platform (inr [("numeric", ["transaction_value"])]) [])
              "transactions" None None
              (self.with_ignore_columns (Some (py_str "webpage_id_column"))
                 sample_self)
              0%nat eq_refl ltac:(discriminate)) as (Hraise & _).
  destruct (Hraise eq_refl) as (Hout & Hself & _ & Htrace).
  split; [exact Hout|]. split; [exact Hself | exact Htrace].
Defined.
